(** * AlphaESS open-API client ([alphaess/alphaess.py]): a shallow embedding

    The client signs every request with SHA-512, calls the vendor's REST
    endpoints through [api_get] / [api_post], and aggregates the per-device
    endpoints in [getdata].  The embedding below follows the Python source
    function by function:

    - JSON values as parsed by [response.json()] are the Python values
      [pyval]; a [dict] is an insertion-ordered association list;
    - exceptions are the type [exn]; a coroutine is a function from the
      history of effects (the trace) to a result and the extended trace;
    - the wall clock, the local date and the HTTP server are functions of the
      history, gathered with the two Python builtins the model leaves
      abstract in the record [Env]. *)

From Stdlib Require Import ZArith List String Ascii Bool Lia.
From Stdlib Require Import DecimalString.
From Stdlib Require SpecFloat QArith_base.
From Stdlib Require DecimalZ DecimalPos.
Import ListNotations.

Local Open Scope string_scope.
Local Open Scope list_scope.
Local Open Scope Z_scope.

(* ================================================================== *)
(** ** [hashlib.sha512]: SHA-512 (FIPS 180-4) on 64-bit words held in [Z] *)
(* ================================================================== *)

Module SHA512.

Definition wmod : Z := 2 ^ 64.
Definition add64 (x y : Z) : Z := (x + y) mod wmod.
Definition not64 (x : Z) : Z := Z.lxor x (wmod - 1).
Definition rotr (n x : Z) : Z :=
  Z.lor (Z.shiftr x n) ((Z.shiftl x (64 - n)) mod wmod).

Definition Ch (x y z : Z) : Z := Z.lxor (Z.land x y) (Z.land (not64 x) z).
Definition Maj (x y z : Z) : Z :=
  Z.lxor (Z.lxor (Z.land x y) (Z.land x z)) (Z.land y z).
Definition bsig0 (x : Z) : Z := Z.lxor (Z.lxor (rotr 28 x) (rotr 34 x)) (rotr 39 x).
Definition bsig1 (x : Z) : Z := Z.lxor (Z.lxor (rotr 14 x) (rotr 18 x)) (rotr 41 x).
Definition ssig0 (x : Z) : Z := Z.lxor (Z.lxor (rotr 1 x) (rotr 8 x)) (Z.shiftr x 7).
Definition ssig1 (x : Z) : Z := Z.lxor (Z.lxor (rotr 19 x) (rotr 61 x)) (Z.shiftr x 6).

Definition K : list Z :=
  [ 0x428a2f98d728ae22; 0x7137449123ef65cd; 0xb5c0fbcfec4d3b2f; 0xe9b5dba58189dbbc;
    0x3956c25bf348b538; 0x59f111f1b605d019; 0x923f82a4af194f9b; 0xab1c5ed5da6d8118;
    0xd807aa98a3030242; 0x12835b0145706fbe; 0x243185be4ee4b28c; 0x550c7dc3d5ffb4e2;
    0x72be5d74f27b896f; 0x80deb1fe3b1696b1; 0x9bdc06a725c71235; 0xc19bf174cf692694;
    0xe49b69c19ef14ad2; 0xefbe4786384f25e3; 0x0fc19dc68b8cd5b5; 0x240ca1cc77ac9c65;
    0x2de92c6f592b0275; 0x4a7484aa6ea6e483; 0x5cb0a9dcbd41fbd4; 0x76f988da831153b5;
    0x983e5152ee66dfab; 0xa831c66d2db43210; 0xb00327c898fb213f; 0xbf597fc7beef0ee4;
    0xc6e00bf33da88fc2; 0xd5a79147930aa725; 0x06ca6351e003826f; 0x142929670a0e6e70;
    0x27b70a8546d22ffc; 0x2e1b21385c26c926; 0x4d2c6dfc5ac42aed; 0x53380d139d95b3df;
    0x650a73548baf63de; 0x766a0abb3c77b2a8; 0x81c2c92e47edaee6; 0x92722c851482353b;
    0xa2bfe8a14cf10364; 0xa81a664bbc423001; 0xc24b8b70d0f89791; 0xc76c51a30654be30;
    0xd192e819d6ef5218; 0xd69906245565a910; 0xf40e35855771202a; 0x106aa07032bbd1b8;
    0x19a4c116b8d2d0c8; 0x1e376c085141ab53; 0x2748774cdf8eeb99; 0x34b0bcb5e19b48a8;
    0x391c0cb3c5c95a63; 0x4ed8aa4ae3418acb; 0x5b9cca4f7763e373; 0x682e6ff3d6b2b8a3;
    0x748f82ee5defb2fc; 0x78a5636f43172f60; 0x84c87814a1f0ab72; 0x8cc702081a6439ec;
    0x90befffa23631e28; 0xa4506cebde82bde9; 0xbef9a3f7b2c67915; 0xc67178f2e372532b;
    0xca273eceea26619c; 0xd186b8c721c0c207; 0xeada7dd6cde0eb1e; 0xf57d4f7fee6ed178;
    0x06f067aa72176fba; 0x0a637dc5a2c898a6; 0x113f9804bef90dae; 0x1b710b35131c471b;
    0x28db77f523047d84; 0x32caab7b40c72493; 0x3c9ebe0a15c9bebc; 0x431d67c49c100d4c;
    0x4cc5d4becb3e42b6; 0x597f299cfc657e2a; 0x5fcb6fab3ad6faec; 0x6c44198c4a475817 ].

(** The eight chaining words a..h. *)
Record chain := Chain
  { ca : Z; cb : Z; cc : Z; cd : Z; ce : Z; cf : Z; cg : Z; ch : Z }.

Definition H0 : chain :=
  Chain 0x6a09e667f3bcc908 0xbb67ae8584caa73b 0x3c6ef372fe94f82b 0xa54ff53a5f1d36f1
        0x510e527fade682d1 0x9b05688c2b3e6c1f 0x1f83d9abfb41bd6b 0x5be0cd19137e2179.

Definition round (s : chain) (k wt : Z) : chain :=
  let t1 := add64 (add64 (add64 (ch s) (bsig1 (ce s))) (Ch (ce s) (cf s) (cg s)))
                  (add64 k wt) in
  let t2 := add64 (bsig0 (ca s)) (Maj (ca s) (cb s) (cc s)) in
  Chain (add64 t1 t2) (ca s) (cb s) (cc s) (add64 (cd s) t1) (ce s) (cf s) (cg s).

(** The message schedule is kept as a sliding window of sixteen words
    [W_t .. W_(t+15)]; each round consumes [W_t] and appends [W_(t+16)]. *)
Fixpoint rounds (ks : list Z) (win : list Z) (s : chain) : chain :=
  match ks with
  | [] => s
  | k :: ks' =>
      match win with
      | [] => s
      | w0 :: rest =>
          let wnew := add64 (add64 (ssig1 (nth 13 rest 0)) (nth 8 rest 0))
                            (add64 (ssig0 (nth 0 rest 0)) w0) in
          rounds ks' (rest ++ [wnew]) (round s k w0)
      end
  end.

Definition compress (h : chain) (block : list Z) : chain :=
  let s := rounds K block h in
  Chain (add64 (ca h) (ca s)) (add64 (cb h) (cb s)) (add64 (cc h) (cc s))
        (add64 (cd h) (cd s)) (add64 (ce h) (ce s)) (add64 (cf h) (cf s))
        (add64 (cg h) (cg s)) (add64 (ch h) (ch s)).

(** Big-endian bytes of a word, [n] bytes wide. *)
Fixpoint be_bytes (n : nat) (x : Z) : list Z :=
  match n with
  | O => []
  | S n' => (Z.shiftr x (8 * Z.of_nat n')) mod 256 :: be_bytes n' x
  end.

Definition be_word (bs : list Z) : Z :=
  fold_left (fun acc b => acc * 256 + b) bs 0.

Definition pad (msg : list Z) : list Z :=
  let len := Z.of_nat (List.length msg) in
  msg ++ [0x80] ++ repeat 0 (Z.to_nat ((111 - len) mod 128)) ++ be_bytes 16 (8 * len).

(** [n] words of eight bytes each from the front of [bs]. *)
Fixpoint words (n : nat) (bs : list Z) : list Z :=
  match n with
  | O => []
  | S n' => be_word (firstn 8 bs) :: words n' (skipn 8 bs)
  end.

Fixpoint blocks (n : nat) (bs : list Z) (h : chain) : chain :=
  match n with
  | O => h
  | S n' => blocks n' (skipn 128 bs) (compress h (words 16 bs))
  end.

Definition digest (msg : list Z) : list Z :=
  let p := pad msg in
  let h := blocks (List.length p / 128) p H0 in
  be_bytes 8 (ca h) ++ be_bytes 8 (cb h) ++ be_bytes 8 (cc h) ++ be_bytes 8 (cd h) ++
  be_bytes 8 (ce h) ++ be_bytes 8 (cf h) ++ be_bytes 8 (cg h) ++ be_bytes 8 (ch h).

Definition hex_digit (n : Z) : ascii :=
  ascii_of_nat (Z.to_nat (if n <? 10 then 48 + n else 87 + n)).

Fixpoint hex (bs : list Z) : string :=
  match bs with
  | [] => EmptyString
  | b :: bs' => String (hex_digit (b / 16)) (String (hex_digit (b mod 16)) (hex bs'))
  end.

(** [hashlib.sha512(data).hexdigest()] *)
Definition hexdigest (msg : list Z) : string := hex (digest msg).

Definition bytes_of_string (s : string) : list Z :=
  map (fun c => Z.of_nat (nat_of_ascii c)) (list_ascii_of_string s).

End SHA512.

(* ================================================================== *)
(** ** Python values, exceptions and the operators the client uses *)
(* ================================================================== *)

(** What [response.json()] can return, and what the caller can pass in.
    A [dict] keeps insertion order; a lookup takes the first binding of a
    key and an assignment replaces it in place. *)
#[local] Unset Elimination Schemes.
Inductive pyval : Type :=
| PNone
| PBool (b : bool)
| PInt (z : Z)
| PFloat (f : SpecFloat.spec_float)
| PStr (s : string)
| PList (l : list pyval)
| PDict (d : list (string * pyval)).
#[local] Set Elimination Schemes.

Inductive exn : Type :=
| ClientConnectionError            (* the session call itself raised *)
| ClientResponseError (status : Z) (* raise_for_status *)
| ContentTypeError                 (* response.json() raised: stands for
                                      ContentTypeError and for
                                      json.JSONDecodeError alike *)
| UnboundLocalError (name : string)
| TypeError
| KeyError (key : string)
| UnicodeEncodeError
| ValueError
| OverflowError.

Inductive result (A : Type) : Type :=
| Ok (a : A)
| Err (e : exn).
Arguments Ok {A} a.
Arguments Err {A} e.

Fixpoint dict_get (d : list (string * pyval)) (k : string) : option pyval :=
  match d with
  | [] => None
  | (k', v) :: d' => if String.eqb k' k then Some v else dict_get d' k
  end.

Fixpoint dict_set (d : list (string * pyval)) (k : string) (v : pyval)
  : list (string * pyval) :=
  match d with
  | [] => [(k, v)]
  | (k', v') :: d' =>
      if String.eqb k' k then (k', v) :: d' else (k', v') :: dict_set d' k v
  end.

Definition dict_has (d : list (string * pyval)) (k : string) : bool :=
  match dict_get d k with Some _ => true | None => false end.

(** [sub in s] on two strings. *)
Fixpoint str_contains (sub s : string) : bool :=
  if String.prefix sub s then true
  else match s with
       | EmptyString => false
       | String _ s' => str_contains sub s'
       end.

(** [v == s] for a string [s]: only an equal string is equal to it. *)
Definition py_str_eq (v : pyval) (s : string) : bool :=
  match v with
  | PStr s' => String.eqb s' s
  | _ => false
  end.

(** [v is None] *)
Definition is_none (v : pyval) : bool :=
  match v with PNone => true | _ => false end.

(** [k in c] *)
Definition py_contains (c : pyval) (k : string) : result bool :=
  match c with
  | PDict d => Ok (dict_has d k)
  | PList l => Ok (existsb (fun v => py_str_eq v k) l)
  | PStr s => Ok (str_contains k s)
  | _ => Err TypeError
  end.

(** [c[k]] for a string key [k] *)
Definition py_getitem (c : pyval) (k : string) : result pyval :=
  match c with
  | PDict d => match dict_get d k with
               | Some v => Ok v
               | None => Err (KeyError k)
               end
  | _ => Err TypeError
  end.

(** [c[k] = v] for a string key [k]; the updated container is returned. *)
Definition py_setitem (c : pyval) (k : string) (v : pyval) : result pyval :=
  match c with
  | PDict d => Ok (PDict (dict_set d k v))
  | _ => Err TypeError
  end.

(** The items [for x in c] runs through. *)
Definition py_iter (c : pyval) : result (list pyval) :=
  match c with
  | PList l => Ok l
  | PDict d => Ok (map (fun kv => PStr (fst kv)) d)
  | PStr s => Ok (map (fun ch => PStr (String ch EmptyString)) (list_ascii_of_string s))
  | _ => Err TypeError
  end.

(** [str(z)] for an [int]. *)
Definition py_str_int (z : Z) : string := NilZero.string_of_int (Z.to_int z).

(** [s.encode('ascii')]; the characters from 128 up stand for the code
    points that do not encode. *)
Definition is_ascii (s : string) : bool :=
  forallb (fun ch => (nat_of_ascii ch <? 128)%nat) (list_ascii_of_string s).

Definition encode_ascii (s : string) : result (list Z) :=
  if is_ascii s then Ok (SHA512.bytes_of_string s) else Err UnicodeEncodeError.

(* ================================================================== *)
(** ** Effects: requests, log records, the trace *)
(* ================================================================== *)

Inductive method : Type := GET | POST.

Record request : Type := Request
  { rq_method : method;
    rq_url : string;
    rq_headers : list (string * string);
    rq_json : pyval }.

(** What the session call gives back: it raises, or a response arrives with
    a status and a body; [body = None] when [response.json()] raises. *)
Inductive http_outcome : Type :=
| ConnFail
| Response (status : Z) (body : option pyval).

Inductive level : Type := DEBUG | ERROR.

(** One constructor per format string passed to [logger]. *)
Inductive log_msg : Type :=
| TryingToCall (resource : string)
| TryingToCallAdjusted (resource : string)
| TryingToCallWithSettings (resource : string) (settings : pyval)
| ErrorWhenCalling (e : exn) (resource : string)
| UnexpectedResponse (status : Z) (path : string)
| UnexpectedJson (json_response : pyval) (path : string)
| LogExn (e : exn)
| LogData (alldata : list pyval)
| TryingToSetCharge (serial : pyval)
| TryingToSetDischarge (serial : pyval).

Inductive event : Type :=
| EvTime (t : Z)                   (* int(time.time()) was read *)
| EvDate (d : string)              (* time.strftime("%Y-%m-%d") was read *)
| EvHttp (rq : request) (out : http_outcome)
                                   (* session.get / session.post and its answer *)
| EvSleep (d : QArith_base.Q)      (* asyncio.sleep(d) *)
| EvLog (l : level) (m : log_msg).

Definition trace : Type := list event.

(** The client object: the two credentials are all the methods read. *)
Record alphaess : Type := Client { appID : string; appSecret : string }.

(** The surroundings of a run.  The clock, the date and the server answer
    as functions of the history so far; [py_repr] is [format(v, '')] on
    floats, lists and dicts and [py_int] is the builtin [int]. *)
Record Env : Type := MkEnv
  { clock : trace -> Z;
    localdate : trace -> string;
    server : trace -> request -> http_outcome;
    py_repr : pyval -> string;
    py_int : pyval -> result pyval }.

(** A coroutine: runs from a history, returns or raises, extends the
    history. *)
Definition M (A : Type) : Type := trace -> result A * trace.

Definition ret {A} (a : A) : M A := fun tr => (Ok a, tr).
Definition raise {A} (e : exn) : M A := fun tr => (Err e, tr).
Definition bind {A B} (m : M A) (k : A -> M B) : M B :=
  fun tr => match m tr with
            | (Ok a, tr') => k a tr'
            | (Err e, tr') => (Err e, tr')
            end.
(** [try: body  except Exception as e: handler e] *)
Definition try_except {A} (body : M A) (handler : exn -> M A) : M A :=
  fun tr => match body tr with
            | (Ok a, tr') => (Ok a, tr')
            | (Err e, tr') => handler e tr'
            end.
Definition lift {A} (r : result A) : M A := fun tr => (r, tr).
Definition emit (e : event) : M unit := fun tr => (Ok tt, tr ++ [e]).

Notation "x <- m ;; k" := (bind m (fun x => k))
  (at level 61, m at next level, right associativity).
Notation "m ;;; k" := (bind m (fun _ => k))
  (at level 61, right associativity).

Definition logger (l : level) (m : log_msg) : M unit := emit (EvLog l m).
Definition asyncio_sleep (d : QArith_base.Q) : M unit := emit (EvSleep d).

Definition BASEURL : string := "https://openapi.alphaess.com/api".

Definition cat (l : list string) : string := String.concat "" l.

(* ================================================================== *)
(** ** The client's methods *)
(* ================================================================== *)

Section Methods.

Variable E : Env.
Variable self : alphaess.

Definition time_time : M Z :=
  fun tr => let t := clock E tr in (Ok t, tr ++ [EvTime t]).

Definition time_strftime : M string :=
  fun tr => let d := localdate E tr in (Ok d, tr ++ [EvDate d]).

(** The session call: the server answers; request and answer are recorded. *)
Definition session_request (m : method) (path : string)
    (hdrs : list (string * string)) (json : pyval) : M http_outcome :=
  fun tr => let rq := Request m path hdrs json in
            let out := server E tr rq in
            (Ok out, tr ++ [EvHttp rq out]).

(** [f"{v}"] *)
Definition py_str (v : pyval) : string :=
  match v with
  | PStr s => s
  | PInt z => py_str_int z
  | PNone => "None"
  | PBool true => "True"
  | PBool false => "False"
  | _ => py_repr E v
  end.

(** [__headers] *)
Definition headers : M (list (string * string)) :=
  t <- time_time ;;
  let timestamp := py_str_int t in
  data <- lift (encode_ascii (cat [appID self; appSecret self; timestamp])) ;;
  ret [ ("Content-Type", "application/json");
        ("Connection", "keep-alive");
        ("Accept", "*/*");
        ("Accept-Encoding", "gzip, deflate, br");
        ("Cache-Control", "no-cache");
        ("timestamp", timestamp);
        ("sign", SHA512.hexdigest data);
        ("appId", appID self);
        ("timeStamp", timestamp) ].

(** The local [json_response] is bound only on status 200; reading it
    unbound raises. *)
Definition read_local (name : string) (v : option pyval) : M pyval :=
  match v with
  | Some j => ret j
  | None => raise (UnboundLocalError name)
  end.

(** The part of [api_get] and [api_post] between the session call and the
    envelope tests: [raise_for_status], then the [if response.status == 200]
    that binds [json_response] or logs. *)
Definition receive (path : string) (out : http_outcome) : M (option pyval) :=
  match out with
  | ConnFail => raise ClientConnectionError
  | Response status body =>
      if 400 <=? status then raise (ClientResponseError status)
      else if status =? 200 then
        match body with
        | Some j => ret (Some j)
        | None => raise ContentTypeError
        end
      else logger ERROR (UnexpectedResponse status path) ;;; ret None
  end.

(** The envelope tests of [api_get], from the [if] on ["msg"] to the
    [return]s. *)
Definition get_envelope (path : string) (json_response : pyval) : M pyval :=
  has_msg <- lift (py_contains json_response "msg") ;;
  not_success <-
    (if has_msg then
       msg <- lift (py_getitem json_response "msg") ;;
       ret (negb (py_str_eq msg "Success"))
     else ret false) ;;
  failed <-
    (if not_success then ret true
     else has_msg' <- lift (py_contains json_response "msg") ;;
          ret (negb has_msg')) ;;
  if failed then
    logger ERROR (UnexpectedJson json_response path) ;;; ret PNone
  else
    data <- lift (py_getitem json_response "data") ;;
    if negb (is_none data) then
      lift (py_getitem json_response "data")
    else
      logger ERROR (UnexpectedJson json_response path) ;;; ret PNone.

(** [api_get]; the default argument [json={}] is the empty dict. *)
Definition api_get (path : string) (json : pyval) : M pyval :=
  try_except
    (hdrs <- headers ;;
     out <- session_request GET path hdrs json ;;
     bound <- receive path out ;;
     json_response <- read_local "json_response" bound ;;
     get_envelope path json_response)
    (fun e => logger ERROR (LogExn e) ;;; raise e).

(** The envelope tests of [api_post]; when the outer [if] fails the
    method falls off its end and returns [None]. *)
Definition post_envelope (path : string) (json_response : pyval) : M pyval :=
  has_msg <- lift (py_contains json_response "msg") ;;
  success <-
    (if has_msg then
       msg <- lift (py_getitem json_response "msg") ;;
       ret (py_str_eq msg "Success")
     else ret false) ;;
  if success then
    data <- lift (py_getitem json_response "data") ;;
    if is_none data then
      lift (py_getitem json_response "data")
    else
      logger ERROR (UnexpectedJson json_response path) ;;;
      lift (py_getitem json_response "data")
  else ret PNone.

(** [api_post] *)
Definition api_post (path : string) (json : pyval) : M pyval :=
  try_except
    (hdrs <- headers ;;
     out <- session_request POST path hdrs json ;;
     bound <- receive path out ;;
     json_response <- read_local "json_response" bound ;;
     post_envelope path json_response)
    (fun e => logger ERROR (LogExn e) ;;; raise e).

(** The read wrappers share one shape: bind [resource], log, call [api_get];
    any exception is logged and the method falls off its end, returning
    [None]. *)
Definition call_get (resource : string) (note : log_msg) : M pyval :=
  try_except
    (logger DEBUG note ;;; api_get resource (PDict []))
    (fun e => logger ERROR (ErrorWhenCalling e resource) ;;; ret PNone).

Definition getESSList : M pyval :=
  let resource := cat [BASEURL; "/getEssList"] in
  call_get resource (TryingToCall resource).

Definition getLastPowerData (sysSn : pyval) : M pyval :=
  let resource := cat [BASEURL; "/getLastPowerData?sysSn="; py_str sysSn] in
  call_get resource (TryingToCall resource).

(** The date is read first; nothing before the binding of [resource] can
    raise, so the handler always finds it bound. *)
Definition getOneDayPowerBySn (sysSn queryDate : pyval) : M pyval :=
  localdateencapsulated <- time_strftime ;;
  if py_str_eq queryDate localdateencapsulated then
    let resource := cat [BASEURL; "/getOneDayPowerBySn?sysSn="; py_str sysSn;
                         "&queryDate="; py_str queryDate] in
    call_get resource (TryingToCall resource)
  else
    let resource := cat [BASEURL; "/getOneDayPowerBySn?sysSn="; py_str sysSn;
                         "&queryDate="; localdateencapsulated] in
    call_get resource (TryingToCallAdjusted resource).

Definition getSumDataForCustomer (sysSn : pyval) : M pyval :=
  let resource := cat [BASEURL; "/getSumDataForCustomer?sysSn="; py_str sysSn] in
  call_get resource (TryingToCall resource).

Definition getOneDateEnergyBySn (sysSn queryDate : pyval) : M pyval :=
  localdateencapsulated <- time_strftime ;;
  if py_str_eq queryDate localdateencapsulated then
    let resource := cat [BASEURL; "/getOneDateEnergyBySn?sysSn="; py_str sysSn;
                         "&queryDate="; py_str queryDate] in
    call_get resource (TryingToCall resource)
  else
    let resource := cat [BASEURL; "/getOneDateEnergyBySn?sysSn="; py_str sysSn;
                         "&queryDate="; localdateencapsulated] in
    call_get resource (TryingToCallAdjusted resource).

Definition getChargeConfigInfo (sysSn : pyval) : M pyval :=
  let resource := cat [BASEURL; "/getChargeConfigInfo?sysSn="; py_str sysSn] in
  call_get resource (TryingToCall resource).

Definition getDisChargeConfigInfo (sysSn : pyval) : M pyval :=
  let resource := cat [BASEURL; "/getDisChargeConfigInfo?sysSn="; py_str sysSn] in
  call_get resource (TryingToCall resource).

Definition call_post (resource : string) (settings : pyval) : M pyval :=
  try_except
    (logger DEBUG (TryingToCallWithSettings resource settings) ;;;
     api_post resource settings)
    (fun e => logger ERROR (ErrorWhenCalling e resource) ;;; ret PNone).

Definition updateChargeConfigInfo
    (sysSn batHighCap gridCharge timeChae1 timeChae2 timeChaf1 timeChaf2 : pyval)
  : M pyval :=
  let resource := cat [BASEURL; "/updateChargeConfigInfo"] in
  let settings := PDict [ ("sysSn", sysSn); ("batHighCap", batHighCap);
                          ("gridCharge", gridCharge); ("timeChae1", timeChae1);
                          ("timeChae2", timeChae2); ("timeChaf1", timeChaf1);
                          ("timeChaf2", timeChaf2) ] in
  call_post resource settings.

Definition updateDisChargeConfigInfo
    (sysSn batUseCap ctrDis timeDise1 timeDise2 timeDisf1 timeDisf2 : pyval)
  : M pyval :=
  let resource := cat [BASEURL; "/updateDisChargeConfigInfo"] in
  let settings := PDict [ ("sysSn", sysSn); ("batUseCap", batUseCap);
                          ("ctrDis", ctrDis); ("timeDise1", timeDise1);
                          ("timeDise2", timeDise2); ("timeDisf1", timeDisf1);
                          ("timeDisf2", timeDisf2) ] in
  call_post resource settings.

(** The body of the [for] loop of [getdata] for an entry that has a serial:
    five sub-calls with [asyncio.sleep(self_delay)] between them and, when
    [get_power] is set, a sleep and the power curve.  Every [unit[...] = ...]
    rebinds [unit] to the updated dict.  (The entries of a parsed JSON list
    are distinct objects, so updating one leaves the others alone.) *)
Definition enrich_unit (get_power : bool) (self_delay : QArith_base.Q)
    (unit : pyval) : M pyval :=
  serial <- lift (py_getitem unit "sysSn") ;;
  v <- getSumDataForCustomer serial ;;
  unit <- lift (py_setitem unit "SumData" v) ;;
  asyncio_sleep self_delay ;;;
  today <- time_strftime ;;
  v <- getOneDateEnergyBySn serial (PStr today) ;;
  unit <- lift (py_setitem unit "OneDateEnergy" v) ;;
  asyncio_sleep self_delay ;;;
  v <- getLastPowerData serial ;;
  unit <- lift (py_setitem unit "LastPower" v) ;;
  asyncio_sleep self_delay ;;;
  v <- getChargeConfigInfo serial ;;
  unit <- lift (py_setitem unit "ChargeConfig" v) ;;
  asyncio_sleep self_delay ;;;
  v <- getDisChargeConfigInfo serial ;;
  unit <- lift (py_setitem unit "DisChargeConfig" v) ;;
  if get_power then
    asyncio_sleep self_delay ;;;
    today <- time_strftime ;;
    v <- getOneDayPowerBySn serial (PStr today) ;;
    lift (py_setitem unit "OneDayPower" v)
  else ret unit.

Fixpoint getdata_loop (get_power : bool) (self_delay : QArith_base.Q)
    (units : list pyval) (alldata : list pyval) : M (list pyval) :=
  match units with
  | [] => ret alldata
  | unit :: rest =>
      has_serial <- lift (py_contains unit "sysSn") ;;
      if has_serial then
        unit' <- enrich_unit get_power self_delay unit ;;
        let alldata' := alldata ++ [unit'] in
        logger DEBUG (LogData alldata') ;;;
        getdata_loop get_power self_delay rest alldata'
      else getdata_loop get_power self_delay rest alldata
  end.

(** [getdata] *)
Definition getdata (get_power : bool) (self_delay : QArith_base.Q)
  : M (list pyval) :=
  try_except
    (units <- getESSList ;;
     items <- lift (py_iter units) ;;
     getdata_loop get_power self_delay items [])
    (fun e => logger ERROR (LogExn e) ;;; raise e).

Fixpoint authenticate_loop (units : list pyval) (success : bool) : M bool :=
  match units with
  | [] => ret success
  | unit :: rest =>
      has_serial <- lift (py_contains unit "sysSn") ;;
      authenticate_loop rest (if has_serial then true else success)
  end.

(** [authenticate] *)
Definition authenticate : M bool :=
  try_except
    (units <- getESSList ;;
     items <- lift (py_iter units) ;;
     authenticate_loop items false)
    (fun e => logger ERROR (LogExn e) ;;; raise e).

(** [setbatterycharge]: [settings] starts as the empty list. *)
Definition setbatterycharge
    (serial enabled cp1start cp1end cp2start cp2end chargestopsoc : pyval)
  : M pyval :=
  try_except
    (let settings := PList [] in
     settings <- lift (py_setitem settings "sysSn" serial) ;;
     gridCharge <- lift (py_int E enabled) ;;
     settings <- lift (py_setitem settings "gridCharge" gridCharge) ;;
     settings <- lift (py_setitem settings "timeChaf1" cp1start) ;;
     settings <- lift (py_setitem settings "timeChae1" cp1end) ;;
     settings <- lift (py_setitem settings "timeChaf2" cp2start) ;;
     settings <- lift (py_setitem settings "timeChae2" cp2end) ;;
     batHighCap <- lift (py_int E chargestopsoc) ;;
     settings <- lift (py_setitem settings "batHighCap" batHighCap) ;;
     logger DEBUG (TryingToSetCharge serial) ;;;
     api_post "updateChargeConfigInfo" settings ;;;
     ret PNone)
    (fun e => logger ERROR (LogExn e) ;;; raise e).

(** [setbatterydischarge] *)
Definition setbatterydischarge
    (serial enabled dp1start dp1end dp2start dp2end dischargecutoffsoc : pyval)
  : M pyval :=
  try_except
    (let settings := PList [] in
     settings <- lift (py_setitem settings "sysSn" serial) ;;
     ctrDis <- lift (py_int E enabled) ;;
     settings <- lift (py_setitem settings "ctrDis" ctrDis) ;;
     settings <- lift (py_setitem settings "timeDisf1" dp1start) ;;
     settings <- lift (py_setitem settings "timeDise1" dp1end) ;;
     settings <- lift (py_setitem settings "timeDisf2" dp2start) ;;
     settings <- lift (py_setitem settings "timeDise2" dp2end) ;;
     batUseCap <- lift (py_int E dischargecutoffsoc) ;;
     settings <- lift (py_setitem settings "batUseCap" batUseCap) ;;
     logger DEBUG (TryingToSetDischarge serial) ;;;
     api_post "updateDisChargeConfigInfo" settings ;;;
     ret PNone)
    (fun e => logger ERROR (LogExn e) ;;; raise e).

End Methods.

(* ================================================================== *)
(** ** Vocabulary of the statements *)
(* ================================================================== *)

(** Both credentials survive [.encode('ascii')]. *)
Definition ascii_credentials (self : alphaess) : bool :=
  is_ascii (appID self) && is_ascii (appSecret self).

(** The bytes [__headers] hashes at time [t], and the value it computes for
    ["sign"]. *)
Definition message (id secret : string) (t : Z) : list Z :=
  SHA512.bytes_of_string (cat [id; secret; py_str_int t]).

Definition signature (id secret : string) (t : Z) : string :=
  SHA512.hexdigest (message id secret t).

(** The headers [__headers] returns at time [t]. *)
Definition signed_headers (self : alphaess) (t : Z) : list (string * string) :=
  [ ("Content-Type", "application/json");
    ("Connection", "keep-alive");
    ("Accept", "*/*");
    ("Accept-Encoding", "gzip, deflate, br");
    ("Cache-Control", "no-cache");
    ("timestamp", py_str_int t);
    ("sign", signature (appID self) (appSecret self) t);
    ("appId", appID self);
    ("timeStamp", py_str_int t) ].

Fixpoint header (name : string) (hdrs : list (string * string)) : option string :=
  match hdrs with
  | [] => None
  | (k, v) :: rest => if String.eqb k name then Some v else header name rest
  end.

(** The request a call of [api_get] / [api_post] sends from history [tr],
    and the answer it gets. *)
Definition sent (E : Env) (self : alphaess) (m : method) (path : string)
    (json : pyval) (tr : trace) : request :=
  Request m path (signed_headers self (clock E tr)) json.

Definition answer (E : Env) (self : alphaess) (m : method) (path : string)
    (json : pyval) (tr : trace) : http_outcome :=
  server E (tr ++ [EvTime (clock E tr)]) (sent E self m path json tr).

(** Connection error, a status other than 200, or a body that is not JSON. *)
Definition transport_failure (out : http_outcome) : bool :=
  match out with
  | ConnFail => true
  | Response status body =>
      negb (status =? 200) || match body with None => true | Some _ => false end
  end.

Definition is_dict (v : pyval) : bool :=
  match v with PDict _ => true | _ => false end.

(** The entry is an object with a ["sysSn"] field. *)
Definition has_serial (v : pyval) : bool :=
  match v with PDict d => dict_has d "sysSn" | _ => false end.

(** The calls a trace shows, with clock reads and log records left out. *)
Inductive call : Type :=
| Call (m : method) (url : string)
| Sleep (d : QArith_base.Q).

Definition call_of (e : event) : list call :=
  match e with
  | EvHttp rq _ => [Call (rq_method rq) (rq_url rq)]
  | EvSleep d => [Sleep d]
  | _ => []
  end.

Definition calls (tr : trace) : list call := flat_map call_of tr.

(** What [api_get] does once the server has answered. *)
Definition get_outcome (path : string) (out : http_outcome) : M pyval :=
  try_except
    (bound <- receive path out ;;
     json_response <- read_local "json_response" bound ;;
     get_envelope path json_response)
    (fun e => logger ERROR (LogExn e) ;;; raise e).

(** What [api_post] does once the server has answered. *)
Definition post_outcome (path : string) (out : http_outcome) : M pyval :=
  try_except
    (bound <- receive path out ;;
     json_response <- read_local "json_response" bound ;;
     post_envelope path json_response)
    (fun e => logger ERROR (LogExn e) ;;; raise e).

(** The answers a trace shows, in order. *)
Definition answer_of (e : event) : list http_outcome :=
  match e with EvHttp _ out => [out] | _ => [] end.

Definition answers (tr : trace) : list http_outcome := flat_map answer_of tr.

(** The value a read operation hands to its caller for a given answer, in
    the words of the specification: the [data] of a status-200 object
    envelope whose [msg] is ["Success"], and absent in every other case. *)
Definition sub_call_value (out : http_outcome) : pyval :=
  match out with
  | Response status (Some (PDict d)) =>
      if status =? 200 then
        match dict_get d "msg", dict_get d "data" with
        | Some msg, Some data => if py_str_eq msg "Success" then data else PNone
        | _, _ => PNone
        end
      else PNone
  | _ => PNone
  end.

(** The resources of the read operations. *)
Definition list_url : string := cat [BASEURL; "/getEssList"].
Definition sum_url (E : Env) (sn : pyval) : string :=
  cat [BASEURL; "/getSumDataForCustomer?sysSn="; py_str E sn].
Definition energy_url (E : Env) (sn : pyval) (date : string) : string :=
  cat [BASEURL; "/getOneDateEnergyBySn?sysSn="; py_str E sn; "&queryDate="; date].
Definition last_url (E : Env) (sn : pyval) : string :=
  cat [BASEURL; "/getLastPowerData?sysSn="; py_str E sn].
Definition charge_url (E : Env) (sn : pyval) : string :=
  cat [BASEURL; "/getChargeConfigInfo?sysSn="; py_str E sn].
Definition discharge_url (E : Env) (sn : pyval) : string :=
  cat [BASEURL; "/getDisChargeConfigInfo?sysSn="; py_str E sn].
Definition power_url (E : Env) (sn : pyval) (date : string) : string :=
  cat [BASEURL; "/getOneDayPowerBySn?sysSn="; py_str E sn; "&queryDate="; date].

(** The fields [getdata] adds to a device, in the order it fills them. *)
Definition fields (get_power : bool) : list string :=
  ["SumData"; "OneDateEnergy"; "LastPower"; "ChargeConfig"; "DisChargeConfig"]
  ++ (if get_power then ["OneDayPower"] else []).

Fixpoint set_fields (d : list (string * pyval)) (ks : list string)
    (vs : list pyval) : list (string * pyval) :=
  match ks, vs with
  | k :: ks', v :: vs' => set_fields (dict_set d k v) ks' vs'
  | _, _ => d
  end.

(** The records the specification asks for: every device, in list order,
    with each field set to the value of its sub-call, absent or not.  The
    answers are consumed in the order the calls were made. *)
Fixpoint build_records (get_power : bool) (devices : list pyval)
    (outs : list http_outcome) : list pyval :=
  match devices with
  | [] => []
  | dev :: rest =>
      let n := List.length (fields get_power) in
      match dev with
      | PDict d =>
          PDict (set_fields d (fields get_power)
                   (map sub_call_value (firstn n outs)))
      | _ => dev
      end :: build_records get_power rest (skipn n outs)
  end.

(** The calls the specification asks for, for one device: the five reads
    separated by the delay, then delay and power curve when asked for. *)
Definition device_calls (E : Env) (get_power : bool) (delay : QArith_base.Q)
    (sn : pyval) (date1 date2 : string) : list call :=
  [ Call GET (sum_url E sn); Sleep delay;
    Call GET (energy_url E sn date1); Sleep delay;
    Call GET (last_url E sn); Sleep delay;
    Call GET (charge_url E sn); Sleep delay;
    Call GET (discharge_url E sn) ]
  ++ (if get_power then [Sleep delay; Call GET (power_url E sn date2)] else []).

Inductive schedule (E : Env) (get_power : bool) (delay : QArith_base.Q)
  : list pyval -> list call -> Prop :=
| schedule_nil : schedule E get_power delay [] []
| schedule_cons dev sn date1 date2 rest cs :
    py_getitem dev "sysSn" = Ok sn ->
    schedule E get_power delay rest cs ->
    schedule E get_power delay (dev :: rest)
      (device_calls E get_power delay sn date1 date2 ++ cs).

(** What [getdata] does once [getESSList] has returned [units]. *)
Definition aggregate (E : Env) (self : alphaess) (get_power : bool)
    (delay : QArith_base.Q) (units : pyval) : M (list pyval) :=
  try_except
    (items <- lift (py_iter units) ;;
     getdata_loop E self get_power delay items [])
    (fun e => logger ERROR (LogExn e) ;;; raise e).

(** A scripted surrounding for the worked examples: a fixed clock and date,
    a server that answers by URL, and stand-ins for the two builtins. *)
Definition envelope (msg : string) (data : pyval) : pyval :=
  PDict [("msg", PStr msg); ("data", data)].

Definition scripted (table : list (string * http_outcome))
    (otherwise : http_outcome) : Env :=
  MkEnv (fun _ => 1700000000)
        (fun _ => "2026-11-03")
        (fun _ rq =>
           match find (fun p => String.eqb (fst p) (rq_url rq)) table with
           | Some p => snd p
           | None => otherwise
           end)
        (fun _ => "")
        (fun v => match v with
                  | PInt z => Ok (PInt z)
                  | PBool b => Ok (PInt (if b then 1 else 0))
                  | _ => Err TypeError
                  end).

Definition demo : alphaess := Client "id" "secret".

Definition no_delay : QArith_base.Q := QArith_base.Qmake 0 1.

(** Segments of log records only. *)
Definition is_log (e : event) : bool :=
  match e with EvLog _ _ => true | _ => false end.

(** What the list call hands to its caller when the envelope is sound:
    [None], or a list whose entries are objects. *)
Definition device_list_shape (v : pyval) : bool :=
  match v with
  | PNone => true
  | PList units => forallb is_dict units
  | _ => false
  end.

(** The server is unreachable. *)
Definition down : Env := scripted [] ConnFail.

(** Two devices; the summary of the second is refused by the vendor, every
    other read succeeds. *)
Definition two_units : list pyval :=
  [PDict [("sysSn", PStr "X1")]; PDict [("sysSn", PStr "X2")]].

Definition two_devices : Env :=
  scripted
    [ (list_url, Response 200 (Some (envelope "Success" (PList two_units))));
      (cat [BASEURL; "/getSumDataForCustomer?sysSn=X2"],
       Response 200 (Some (envelope "Failed" PNone))) ]
    (Response 200 (Some (envelope "Success" (PDict [("ok", PBool true)])))).

(** A list with one device and one entry that has no serial. *)
Definition mixed_units : list pyval :=
  [PDict [("name", PStr "spare")]; PDict [("sysSn", PStr "X1")]].

Definition mixed : Env :=
  scripted
    [ (list_url, Response 200 (Some (envelope "Success" (PList mixed_units)))) ]
    (Response 200 (Some (envelope "Success" (PInt 1)))).

(** The vendor answers 200 with the given body, whatever is asked. *)
Definition always (body : pyval) : Env :=
  scripted [] (Response 200 (Some body)).

(* ================================================================== *)
(** ** Construction and shutdown *)
(* ================================================================== *)

(** A session object of the HTTP library, known by its identity. *)
Definition session_id : Type := nat.

(** What happens to sessions. *)
Inductive session_event : Type :=
| SessionCreated (s : session_id)   (* aiohttp.ClientSession() *)
| SessionClosed (s : session_id).   (* await session.close() *)

(** The attributes [__init__] sets. *)
Record instance : Type := Instance
  { credentials : alphaess;          (* appID, appSecret *)
    accesstoken : pyval;
    expiresin : pyval;
    tokencreatetime : pyval;
    refreshtoken : pyval;
    session : session_id;
    _created_session : bool;
    timeout : Z }.

(** [__init__]; [fresh] is the session [aiohttp.ClientSession()] would
    return.  A session object is truthy, so [session or ...] creates one
    exactly when the argument is [None], and [not session] is true exactly
    then. *)
Definition init (appID appSecret : string) (session : option session_id)
    (timeout : Z) (fresh : session_id) : instance * list session_event :=
  let chosen := match session with
                | Some s => (s, [])
                | None => (fresh, [SessionCreated fresh])
                end in
  let created := match session with Some _ => false | None => true end in
  (Instance (Client appID appSecret) PNone PNone PNone PNone
            (fst chosen) created timeout,
   snd chosen).

(** [close] *)
Definition close (self : instance) : list session_event :=
  if _created_session self then [SessionClosed (session self)] else [].

(** The sessions open after a run of session events, given those open
    before it. *)
Fixpoint open_sessions (evs : list session_event) (opened : list session_id)
  : list session_id :=
  match evs with
  | [] => opened
  | SessionCreated s :: rest => open_sessions rest (s :: opened)
  | SessionClosed s :: rest =>
      open_sessions rest (filter (fun s' => negb (Nat.eqb s' s)) opened)
  end.

(* ================================================================== *)
(** ** Further vocabulary *)
(* ================================================================== *)

(** The requests a trace shows, in order. *)
Definition request_of (e : event) : list request :=
  match e with EvHttp rq _ => [rq] | _ => [] end.

Definition requests (tr : trace) : list request := flat_map request_of tr.

Definition is_http (e : event) : bool :=
  match e with EvHttp _ _ => true | _ => false end.

(** Histories in which every request follows a clock read, carries the
    headers signed for that reading, and is answered by the server. *)
Inductive fresh_signed (E : Env) (self : alphaess) : trace -> Prop :=
| fresh_nil : fresh_signed E self []
| fresh_quiet tr e :
    fresh_signed E self tr -> is_http e = false ->
    fresh_signed E self (tr ++ [e])
| fresh_request tr m path json :
    fresh_signed E self tr ->
    fresh_signed E self
      (tr ++ [EvTime (clock E tr);
              EvHttp (sent E self m path json tr) (answer E self m path json tr)]).

(** A coroutine that keeps histories that way. *)
Definition keeps_fresh (E : Env) (self : alphaess) {A} (m : M A) : Prop :=
  forall tr, fresh_signed E self tr -> fresh_signed E self (snd (m tr)).

(** List entries on which the loop of [getdata] raises: [in] fails on
    [None], booleans and numbers; a string or list that contains ["sysSn"]
    passes the [in] test and fails at [unit["sysSn"]]. *)
Definition aborts (u : pyval) : bool :=
  match u with
  | PDict _ => false
  | PStr s => str_contains "sysSn" s
  | PList l => existsb (fun v => py_str_eq v "sysSn") l
  | _ => true
  end.

Definition is_sleep (c : call) : bool :=
  match c with Sleep _ => true | Call _ _ => false end.

(** Credentials that do not encode: the secret holds the character 233. *)
Definition unencodable : alphaess :=
  Client "id" (String (ascii_of_nat 233) "secret").

(** A body that is a list without the element ["msg"] or a string without
    the substring ["msg"]: the only bodies other than objects on which the
    envelope tests do not raise. *)
Definition lacks_msg (j : pyval) : bool :=
  match j with
  | PList l => negb (existsb (fun v => py_str_eq v "msg") l)
  | PStr s => negb (str_contains "msg" s)
  | _ => false
  end.

(** [None], booleans and numbers: the values on which [in] raises. *)
Definition scalar (u : pyval) : bool :=
  match u with
  | PNone | PBool _ | PInt _ | PFloat _ => true
  | _ => false
  end.

(** ["sysSn" in u] holds: an object with that key, a list with that element,
    a string with that substring. *)
Definition mentions_serial (u : pyval) : bool :=
  match py_contains u "sysSn" with
  | Ok b => b
  | Err _ => false
  end.

(** The vendor answers the list call with a single device object instead
    of a list. *)
Definition single_object : Env :=
  scripted
    [ (list_url,
       Response 200 (Some (envelope "Success"
                             (PDict [("sysSn", PStr "X1"); ("popv", PInt 5)])))) ]
    (Response 200 (Some (envelope "Success" (PInt 1)))).

(** A device list with [null] between two devices. *)
Definition holed_units : list pyval :=
  [PDict [("sysSn", PStr "X1")]; PNone; PDict [("sysSn", PStr "X2")]].

Definition holed : Env :=
  scripted
    [ (list_url, Response 200 (Some (envelope "Success" (PList holed_units)))) ]
    (Response 200 (Some (envelope "Success" (PInt 1)))).


Arguments SHA512.hexdigest : simpl never.
Arguments py_str_int : simpl never.
Arguments signature : simpl never.

(* ================================================================== *)
(** ** Strings and the signer *)
(* ================================================================== *)

Lemma is_ascii_app (a b : string) :
  is_ascii (a ++ b)%string = is_ascii a && is_ascii b.
Proof.
  unfold is_ascii. induction a as [|c a IH]; simpl; [reflexivity|].
  rewrite IH. now rewrite andb_assoc.
Qed.

Lemma is_ascii_uint (d : Decimal.uint) :
  is_ascii (NilEmpty.string_of_uint d) = true.
Proof. induction d; simpl; auto. Qed.

Lemma is_ascii_str_int (z : Z) : is_ascii (py_str_int z) = true.
Proof.
  unfold py_str_int, NilZero.string_of_int, NilZero.string_of_uint.
  destruct (Z.to_int z) as [d|d]; destruct d; try reflexivity;
    try apply (is_ascii_uint (Decimal.D0 _));
    first [ exact (is_ascii_uint _) | idtac ].
Qed.

Lemma headers_run E self tr :
  ascii_credentials self = true ->
  headers E self tr =
    (Ok (signed_headers self (clock E tr)), tr ++ [EvTime (clock E tr)]).
Proof.
  unfold ascii_credentials. intros H.
  apply andb_true_iff in H as [Hid Hsecret].
  unfold headers, bind, time_time, lift, encode_ascii, cat. simpl String.concat.
  rewrite !is_ascii_app, Hid, Hsecret, is_ascii_str_int. reflexivity.
Qed.

Lemma headers_raise E self tr :
  ascii_credentials self = false ->
  headers E self tr = (Err UnicodeEncodeError, tr ++ [EvTime (clock E tr)]).
Proof.
  unfold ascii_credentials. intros H.
  unfold headers, bind, time_time, lift, encode_ascii, cat. simpl String.concat.
  rewrite !is_ascii_app, is_ascii_str_int, andb_true_r, H. reflexivity.
Qed.

(* ================================================================== *)
(** ** Envelope transport *)
(* ================================================================== *)

Lemma api_get_run E self path json tr :
  ascii_credentials self = true ->
  api_get E self path json tr =
    get_outcome path (answer E self GET path json tr)
      (tr ++ [EvTime (clock E tr);
             EvHttp (sent E self GET path json tr) (answer E self GET path json tr)]).
Proof.
  intros H. unfold api_get, get_outcome, try_except, bind at 1.
  rewrite (headers_run E self tr H).
  unfold bind at 1, session_request, answer, sent.
  rewrite <- app_assoc. reflexivity.
Qed.

Lemma api_post_run E self path json tr :
  ascii_credentials self = true ->
  api_post E self path json tr =
    post_outcome path (answer E self POST path json tr)
      (tr ++ [EvTime (clock E tr);
             EvHttp (sent E self POST path json tr) (answer E self POST path json tr)]).
Proof.
  intros H. unfold api_post, post_outcome, try_except, bind at 1.
  rewrite (headers_run E self tr H).
  unfold bind at 1, session_request, answer, sent.
  rewrite <- app_assoc. reflexivity.
Qed.

(** C1. A GET answered with status 200 and an object envelope [d]:
    [api_get] returns [None] when ["msg"] is missing or is not ["Success"],
    and when ["data"] is null; it returns the data unchanged when ["msg"] is
    ["Success"] and ["data"] is a value.  With ["msg"] equal to ["Success"]
    and no ["data"] key at all it does not return [None]: the lookup
    [json_response["data"]] raises [KeyError]. *)
Theorem api_get_envelope E self path json tr d :
  ascii_credentials self = true ->
  answer E self GET path json tr = Response 200 (Some (PDict d)) ->
  fst (api_get E self path json tr) =
    match dict_get d "msg" with
    | None => Ok PNone
    | Some msg =>
        if py_str_eq msg "Success" then
          match dict_get d "data" with
          | Some data => Ok data
          | None => Err (KeyError "data")
          end
        else Ok PNone
    end.
Proof.
  intros Hc Hans. rewrite (api_get_run E self path json tr Hc), Hans.
  unfold get_outcome, try_except, bind at 1. cbn [receive Z.leb Z.eqb Z.compare Pos.compare Pos.compare_cont Pos.eqb].
  unfold bind at 1. cbn [ret read_local].
  unfold get_envelope, bind, lift, ret, logger, emit, raise, py_contains, py_getitem, dict_has.
  destruct (dict_get d "msg") as [msg|] eqn:Hmsg; cbn.
  - destruct (py_str_eq msg "Success"); cbn; [|reflexivity].
    destruct (dict_get d "data") as [data|] eqn:Hdata; cbn; [|reflexivity].
    destruct data; reflexivity.
  - reflexivity.
Qed.

(** *** Stepping through a coroutine *)

Lemma bind_ok {A B} (m : M A) (k : A -> M B) tr a tr' :
  m tr = (Ok a, tr') -> bind m k tr = k a tr'.
Proof. unfold bind. now intros ->. Qed.

Lemma try_ok {A} (m : M A) h tr a tr' :
  m tr = (Ok a, tr') -> try_except m h tr = (Ok a, tr').
Proof. unfold try_except. now intros ->. Qed.

Lemma try_err {A} (m : M A) h tr e tr' :
  m tr = (Err e, tr') -> try_except m h tr = h e tr'.
Proof. unfold try_except. now intros ->. Qed.

Lemma calls_app a b : calls (a ++ b) = calls a ++ calls b.
Proof. apply flat_map_app. Qed.

Lemma answers_app a b : answers (a ++ b) = answers a ++ answers b.
Proof. apply flat_map_app. Qed.

Lemma logs_only_calls seg : forallb is_log seg = true -> calls seg = [].
Proof.
  induction seg as [|e seg IH]; [reflexivity|].
  destruct e; simpl; try discriminate. exact IH.
Qed.

Lemma logs_only_answers seg : forallb is_log seg = true -> answers seg = [].
Proof.
  induction seg as [|e seg IH]; [reflexivity|].
  destruct e; simpl; try discriminate. exact IH.
Qed.

Ltac run_monad :=
  cbv beta iota delta
    [bind ret raise lift try_except logger emit read_local receive
     get_envelope post_envelope py_contains py_getitem dict_has is_none negb
     fst snd].

(** Once the answer is in, [api_get] only logs; what it returns, or the fact
    that it raises, is read off the answer. *)
Lemma get_outcome_spec path out tr :
  exists r seg,
    get_outcome path out tr = (r, tr ++ seg) /\
    forallb is_log seg = true /\
    match r with
    | Ok v => v = sub_call_value out
    | Err _ => sub_call_value out = PNone
    end.
Proof.
  unfold get_outcome.
  destruct out as [|status body].
  { run_monad. eexists _, [_]. repeat split. }
  destruct (Z.eqb_spec status 200) as [->|Hne].
  - destruct body as [j|].
    2:{ run_monad. simpl. eexists _, [_]. repeat split. }
    destruct j as [| b | z | f | s | l | d]; simpl sub_call_value;
      try (run_monad; simpl; eexists _, [_]; repeat split; fail).
    + run_monad. simpl. destruct (str_contains "msg" s);
        eexists _, [_]; repeat split.
    + run_monad. simpl. destruct (existsb _ l);
        eexists _, [_]; repeat split.
    + run_monad. simpl.
      destruct (dict_get d "msg") as [msg|].
      2:{ eexists _, [_]. repeat split. }
      destruct (dict_get d "data") as [data|];
        destruct (py_str_eq msg "Success");
        try (eexists _, [_]; repeat split; fail).
      destruct data; try (eexists _, []; rewrite app_nil_r; repeat split; fail).
      eexists _, [_]; repeat split.
  - simpl sub_call_value. apply Z.eqb_neq in Hne.
    assert (Hv : match body with
                 | Some (PDict d) =>
                     if status =? 200
                     then match dict_get d "msg", dict_get d "data" with
                          | Some msg, Some data =>
                              if py_str_eq msg "Success" then data else PNone
                          | _, _ => PNone
                          end
                     else PNone
                 | _ => PNone
                 end = PNone).
    { rewrite Hne. destruct body as [[]|]; reflexivity. }
    rewrite Hv. run_monad. rewrite Hne.
    destruct (400 <=? status).
    + eexists _, [_]. repeat split.
    + simpl. rewrite <- app_assoc. eexists _, [_; _]. repeat split.
Qed.

(** A read wrapper never raises: it makes one GET and returns the value of
    the answer. *)
Lemma call_get_spec E self resource note tr :
  ascii_credentials self = true ->
  let out := answer E self GET resource (PDict []) (tr ++ [EvLog DEBUG note]) in
  exists seg,
    call_get E self resource note tr = (Ok (sub_call_value out), tr ++ seg) /\
    calls seg = [Call GET resource] /\
    answers seg = [out].
Proof.
  intros Hc out. unfold call_get.
  set (tr1 := tr ++ [EvLog DEBUG note]).
  set (tr2 := tr1 ++ [EvTime (clock E tr1);
                      EvHttp (sent E self GET resource (PDict []) tr1) out]).
  destruct (get_outcome_spec resource out tr2) as (r & seg & Hrun & Hlog & Hval).
  assert (Hbody : (logger DEBUG note ;;; api_get E self resource (PDict [])) tr
                  = (r, tr2 ++ seg)).
  { unfold bind, logger, emit. fold tr1.
    rewrite (api_get_run E self resource (PDict []) tr1 Hc). exact Hrun. }
  destruct r as [v|e].
  - exists ([EvLog DEBUG note;
             EvTime (clock E tr1);
             EvHttp (sent E self GET resource (PDict []) tr1) out] ++ seg).
    rewrite (try_ok _ _ _ _ _ Hbody). subst v.
    split; [|split].
    + unfold tr2, tr1. now rewrite <- !app_assoc.
    + rewrite calls_app, (logs_only_calls _ Hlog). reflexivity.
    + rewrite answers_app, (logs_only_answers _ Hlog). reflexivity.
  - exists ([EvLog DEBUG note;
             EvTime (clock E tr1);
             EvHttp (sent E self GET resource (PDict []) tr1) out] ++ seg
            ++ [EvLog ERROR (ErrorWhenCalling e resource)]).
    rewrite (try_err _ _ _ _ _ Hbody), Hval.
    split; [|split].
    + unfold bind, logger, emit, ret, tr2, tr1. now rewrite <- !app_assoc.
    + rewrite !calls_app, (logs_only_calls _ Hlog). reflexivity.
    + rewrite !answers_app, (logs_only_answers _ Hlog). reflexivity.
Qed.

(** Without usable credentials the wrapper still returns, with [None]. *)
Lemma call_get_total E self resource note tr :
  exists v tr', call_get E self resource note tr = (Ok v, tr').
Proof.
  unfold call_get, try_except.
  destruct ((logger DEBUG note ;;; api_get E self resource (PDict [])) tr)
    as [[v|e] tr'].
  - now exists v, tr'.
  - eexists _, _. reflexivity.
Qed.

Lemma py_str_eq_true v s : py_str_eq v s = true -> v = PStr s.
Proof.
  destruct v; simpl; try discriminate.
  intros H. apply String.eqb_eq in H. now subst.
Qed.

(** The two dated reads: the date is read, compared, and the request goes
    out with the date just read whichever way the comparison ends. *)
Lemma energy_spec E self sn queryDate tr :
  ascii_credentials self = true ->
  exists seg out,
    getOneDateEnergyBySn E self sn queryDate tr
      = (Ok (sub_call_value out), tr ++ seg) /\
    calls seg = [Call GET (energy_url E sn (localdate E tr))] /\
    answers seg = [out].
Proof.
  intros Hc. unfold getOneDateEnergyBySn, bind at 1, time_strftime.
  set (today := localdate E tr).
  destruct (py_str_eq queryDate today) eqn:Heq.
  - apply py_str_eq_true in Heq. subst queryDate.
    destruct (call_get_spec E self (energy_url E sn today)
                (TryingToCall (energy_url E sn today))
                (tr ++ [EvDate today]) Hc) as (seg & Hrun & Hcalls & Hans).
    eexists (EvDate today :: seg), _. cbn [py_str].
    assert (Htr : (tr ++ [EvDate today]) ++ seg = tr ++ EvDate today :: seg)
      by now rewrite <- app_assoc.
    unfold energy_url in *. rewrite Hrun, Htr.
    split; [reflexivity|]. split; [exact Hcalls | exact Hans].
  - destruct (call_get_spec E self (energy_url E sn today)
                (TryingToCallAdjusted (energy_url E sn today))
                (tr ++ [EvDate today]) Hc) as (seg & Hrun & Hcalls & Hans).
    eexists (EvDate today :: seg), _.
    assert (Htr : (tr ++ [EvDate today]) ++ seg = tr ++ EvDate today :: seg)
      by now rewrite <- app_assoc.
    unfold energy_url in *. rewrite Hrun, Htr.
    split; [reflexivity|]. split; [exact Hcalls | exact Hans].
Qed.

Lemma power_spec E self sn queryDate tr :
  ascii_credentials self = true ->
  exists seg out,
    getOneDayPowerBySn E self sn queryDate tr
      = (Ok (sub_call_value out), tr ++ seg) /\
    calls seg = [Call GET (power_url E sn (localdate E tr))] /\
    answers seg = [out].
Proof.
  intros Hc. unfold getOneDayPowerBySn, bind at 1, time_strftime.
  set (today := localdate E tr).
  destruct (py_str_eq queryDate today) eqn:Heq.
  - apply py_str_eq_true in Heq. subst queryDate.
    destruct (call_get_spec E self (power_url E sn today)
                (TryingToCall (power_url E sn today))
                (tr ++ [EvDate today]) Hc) as (seg & Hrun & Hcalls & Hans).
    eexists (EvDate today :: seg), _. cbn [py_str].
    assert (Htr : (tr ++ [EvDate today]) ++ seg = tr ++ EvDate today :: seg)
      by now rewrite <- app_assoc.
    unfold power_url in *. rewrite Hrun, Htr.
    split; [reflexivity|]. split; [exact Hcalls | exact Hans].
  - destruct (call_get_spec E self (power_url E sn today)
                (TryingToCallAdjusted (power_url E sn today))
                (tr ++ [EvDate today]) Hc) as (seg & Hrun & Hcalls & Hans).
    eexists (EvDate today :: seg), _.
    assert (Htr : (tr ++ [EvDate today]) ++ seg = tr ++ EvDate today :: seg)
      by now rewrite <- app_assoc.
    unfold power_url in *. rewrite Hrun, Htr.
    split; [reflexivity|]. split; [exact Hcalls | exact Hans].
Qed.

(** C7. Whatever [queryDate] is passed, equal to the local date or not,
    [getOneDateEnergyBySn] and [getOneDayPowerBySn] each return after
    exactly one request, a GET whose [queryDate] parameter is the local date
    read at the call. *)
Theorem query_date_is_forced E self sn queryDate tr :
  ascii_credentials self = true ->
  (exists v seg,
      getOneDateEnergyBySn E self sn queryDate tr = (Ok v, tr ++ seg) /\
      calls seg = [Call GET (cat [BASEURL; "/getOneDateEnergyBySn?sysSn=";
                                  py_str E sn; "&queryDate="; localdate E tr])])
  /\
  (exists v seg,
      getOneDayPowerBySn E self sn queryDate tr = (Ok v, tr ++ seg) /\
      calls seg = [Call GET (cat [BASEURL; "/getOneDayPowerBySn?sysSn=";
                                  py_str E sn; "&queryDate="; localdate E tr])]).
Proof.
  intros Hc. split.
  - destruct (energy_spec E self sn queryDate tr Hc) as (seg & out & H & Hcalls & _).
    now exists (sub_call_value out), seg.
  - destruct (power_spec E self sn queryDate tr Hc) as (seg & out & H & Hcalls & _).
    now exists (sub_call_value out), seg.
Qed.

(* ================================================================== *)
(** ** Aggregator *)
(* ================================================================== *)

Lemma sum_spec E self sn tr :
  ascii_credentials self = true ->
  exists seg out,
    getSumDataForCustomer E self sn tr = (Ok (sub_call_value out), tr ++ seg) /\
    calls seg = [Call GET (sum_url E sn)] /\ answers seg = [out].
Proof.
  intros Hc.
  destruct (call_get_spec E self (sum_url E sn) (TryingToCall (sum_url E sn)) tr Hc)
    as (seg & H). eexists seg, _. exact H.
Qed.

Lemma last_spec E self sn tr :
  ascii_credentials self = true ->
  exists seg out,
    getLastPowerData E self sn tr = (Ok (sub_call_value out), tr ++ seg) /\
    calls seg = [Call GET (last_url E sn)] /\ answers seg = [out].
Proof.
  intros Hc.
  destruct (call_get_spec E self (last_url E sn) (TryingToCall (last_url E sn)) tr Hc)
    as (seg & H). eexists seg, _. exact H.
Qed.

Lemma charge_spec E self sn tr :
  ascii_credentials self = true ->
  exists seg out,
    getChargeConfigInfo E self sn tr = (Ok (sub_call_value out), tr ++ seg) /\
    calls seg = [Call GET (charge_url E sn)] /\ answers seg = [out].
Proof.
  intros Hc.
  destruct (call_get_spec E self (charge_url E sn)
              (TryingToCall (charge_url E sn)) tr Hc)
    as (seg & H). eexists seg, _. exact H.
Qed.

Lemma discharge_spec E self sn tr :
  ascii_credentials self = true ->
  exists seg out,
    getDisChargeConfigInfo E self sn tr = (Ok (sub_call_value out), tr ++ seg) /\
    calls seg = [Call GET (discharge_url E sn)] /\ answers seg = [out].
Proof.
  intros Hc.
  destruct (call_get_spec E self (discharge_url E sn)
              (TryingToCall (discharge_url E sn)) tr Hc)
    as (seg & H). eexists seg, _. exact H.
Qed.

Lemma bind_lift_ok {A B} (a : A) (k : A -> M B) tr :
  bind (lift (Ok a)) k tr = k a tr.
Proof. reflexivity. Qed.

Lemma bind_sleep {B} d (k : unit -> M B) tr :
  bind (asyncio_sleep d) k tr = k tt (tr ++ [EvSleep d]).
Proof. reflexivity. Qed.

Lemma bind_strftime {B} E (k : string -> M B) tr :
  bind (time_strftime E) k tr = k (localdate E tr) (tr ++ [EvDate (localdate E tr)]).
Proof. reflexivity. Qed.

Ltac sub_call spec Hc seg out Hrun Hcalls Hans :=
  match goal with
  | |- context [bind (?w) _ ?t] =>
      match w with
      | lift _ => fail 1
      | asyncio_sleep _ => fail 1
      | time_strftime _ => fail 1
      | _ => idtac
      end;
      first
        [ destruct (spec t Hc) as (seg & out & Hrun & Hcalls & Hans) ];
      rewrite (bind_ok _ _ _ _ _ Hrun);
      cbn [py_setitem]; rewrite ?bind_lift_ok
  end.

(** One device, in continuation form: whatever holds of every outcome the
    specification allows holds of the run of [enrich_unit]. *)
Lemma enrich_unit_post E self gp delay d sn tr
      (Q : result pyval * trace -> Prop) :
  ascii_credentials self = true ->
  dict_get d "sysSn" = Some sn ->
  (forall seg date1 date2,
      calls seg = device_calls E gp delay sn date1 date2 ->
      List.length (answers seg) = List.length (fields gp) ->
      Q (Ok (PDict (set_fields d (fields gp) (map sub_call_value (answers seg)))),
         tr ++ seg)) ->
  Q (enrich_unit E self gp delay (PDict d) tr).
Proof.
  intros Hc Hsn HQ. unfold enrich_unit.
  cbn [py_getitem]. rewrite Hsn, bind_lift_ok.
  sub_call (sum_spec E self sn) Hc s1 o1 R1 C1 A1.
  rewrite bind_sleep, bind_strftime.
  match goal with
  | |- context [bind (getOneDateEnergyBySn E self sn ?q) _ ?t] =>
      destruct (energy_spec E self sn q t Hc) as (s2 & o2 & R2 & C2 & A2);
      rewrite (bind_ok _ _ _ _ _ R2); cbn [py_setitem]; rewrite bind_lift_ok
  end.
  rewrite bind_sleep.
  sub_call (last_spec E self sn) Hc s3 o3 R3 C3 A3.
  rewrite bind_sleep.
  sub_call (charge_spec E self sn) Hc s4 o4 R4 C4 A4.
  rewrite bind_sleep.
  sub_call (discharge_spec E self sn) Hc s5 o5 R5 C5 A5.
  destruct gp.
  - rewrite bind_sleep, bind_strftime.
    match goal with
    | |- context [bind (getOneDayPowerBySn E self sn ?q) _ ?t] =>
        destruct (power_spec E self sn q t Hc) as (s6 & o6 & R6 & C6 & A6);
        rewrite (bind_ok _ _ _ _ _ R6); cbn [py_setitem]; unfold lift
    end.
    match goal with
    | |- Q (_, ?t) =>
        match type of R2 with
        | getOneDateEnergyBySn _ _ _ (PStr ?d1) ?t1 = _ =>
            match type of R6 with
            | getOneDayPowerBySn _ _ _ (PStr ?d2) ?t6 = _ =>
                specialize (HQ (s1 ++ [EvSleep delay; EvDate d1] ++ s2
                                 ++ [EvSleep delay] ++ s3 ++ [EvSleep delay] ++ s4
                                 ++ [EvSleep delay] ++ s5
                                 ++ [EvSleep delay; EvDate d2] ++ s6)
                              (localdate E t1) (localdate E t6))
            end
        end
    end.
    rewrite !calls_app, !answers_app, C1, C2, C3, C4, C5, C6,
      A1, A2, A3, A4, A5, A6 in HQ.
    specialize (HQ eq_refl eq_refl). cbn [fields set_fields map app] in HQ.
    repeat rewrite <- app_assoc. repeat rewrite <- app_assoc in HQ.
    exact HQ.
  - unfold ret.
    match goal with
    | |- Q (_, ?t) =>
        match type of R2 with
        | getOneDateEnergyBySn _ _ _ (PStr ?d1) ?t1 = _ =>
            specialize (HQ (s1 ++ [EvSleep delay; EvDate d1] ++ s2
                             ++ [EvSleep delay] ++ s3 ++ [EvSleep delay] ++ s4
                             ++ [EvSleep delay] ++ s5)
                          (localdate E t1) EmptyString)
        end
    end.
    rewrite !calls_app, !answers_app, C1, C2, C3, C4, C5,
      A1, A2, A3, A4, A5 in HQ.
    specialize (HQ eq_refl eq_refl). cbn [fields set_fields map app] in HQ.
    repeat rewrite <- app_assoc. repeat rewrite <- app_assoc in HQ.
    exact HQ.
Qed.

Lemma firstn_exact {A} (a b : list A) n :
  List.length a = n -> firstn n (a ++ b) = a.
Proof.
  intros <-. rewrite firstn_app, Nat.sub_diag, firstn_all. simpl.
  apply app_nil_r.
Qed.

Lemma skipn_exact {A} (a b : list A) n :
  List.length a = n -> skipn n (a ++ b) = b.
Proof.
  intros <-. rewrite skipn_app, Nat.sub_diag, skipn_all. reflexivity.
Qed.

Lemma dict_has_get d k :
  dict_has d k = true -> exists v, dict_get d k = Some v.
Proof.
  unfold dict_has. destruct (dict_get d k) as [v|]; [now exists v | discriminate].
Qed.

(** The loop of [getdata] over a list of objects: it never raises, it
    appends one record per entry with a serial, built from the answers in
    call order, and its calls follow the schedule. *)
Lemma getdata_loop_spec E self gp delay units :
  ascii_credentials self = true ->
  forallb is_dict units = true ->
  forall acc tr,
  exists seg,
    getdata_loop E self gp delay units acc tr
      = (Ok (acc ++ build_records gp (filter has_serial units) (answers seg)),
         tr ++ seg) /\
    schedule E gp delay (filter has_serial units) (calls seg) /\
    List.length (answers seg)
      = (List.length (fields gp) * List.length (filter has_serial units))%nat.
Proof.
  intros Hc. induction units as [|u rest IH]; intros Hd acc tr.
  - exists []. cbn. rewrite !app_nil_r, Nat.mul_0_r.
    repeat split. constructor.
  - cbn [forallb] in Hd. apply andb_true_iff in Hd as [Hu Hrest].
    destruct u as [| | | | | |d]; try discriminate.
    cbn [getdata_loop py_contains filter has_serial]. rewrite bind_lift_ok.
    destruct (dict_has d "sysSn") eqn:Hhas.
    2:{ exact (IH Hrest acc tr). }
    destruct (dict_has_get _ _ Hhas) as [sn Hsn].
    unfold bind at 1.
    pattern (enrich_unit E self gp delay (PDict d) tr).
    apply (enrich_unit_post E self gp delay d sn tr _ Hc Hsn).
    intros seg1 date1 date2 Hcalls Hlen.
    cbv beta iota. unfold bind at 1, logger at 1, emit.
    set (rec := PDict (set_fields d (fields gp) (map sub_call_value (answers seg1)))).
    destruct (IH Hrest (acc ++ [rec]) ((tr ++ seg1) ++ [EvLog DEBUG (LogData (acc ++ [rec]))]))
      as (seg2 & Hrun & Hsched & Hlen2).
    exists (seg1 ++ [EvLog DEBUG (LogData (acc ++ [rec]))] ++ seg2).
    rewrite Hrun. split; [|split].
    + rewrite !answers_app. cbn [answers flat_map answer_of app build_records].
      rewrite (firstn_exact _ _ _ Hlen), (skipn_exact _ _ _ Hlen).
      fold rec. now rewrite <- !app_assoc.
    + rewrite !calls_app. cbn [calls flat_map call_of app]. rewrite Hcalls.
      econstructor; [|exact Hsched]. cbn. now rewrite Hsn.
    + rewrite !answers_app. cbn [answers flat_map answer_of app].
      rewrite length_app, Hlen, Hlen2. cbn [List.length]. lia.
Qed.

(** *** Records *)

Lemma dict_get_set_same d k v : dict_get (dict_set d k v) k = Some v.
Proof.
  induction d as [|[k' v'] d IH]; simpl.
  - now rewrite String.eqb_refl.
  - destruct (String.eqb k' k) eqn:Hk; simpl; rewrite Hk; [reflexivity | exact IH].
Qed.

Lemma dict_get_set_other d k v k' :
  k <> k' -> dict_get (dict_set d k v) k' = dict_get d k'.
Proof.
  intros Hne. induction d as [|[k0 v0] d IH]; simpl.
  - apply String.eqb_neq in Hne. now rewrite Hne.
  - destruct (String.eqb k0 k) eqn:Hk; simpl.
    + apply String.eqb_eq in Hk. subst k0.
      apply String.eqb_neq in Hne. now rewrite Hne.
    + now rewrite IH.
Qed.

Lemma set_fields_other ks : forall d vs f,
  ~ In f ks -> dict_get (set_fields d ks vs) f = dict_get d f.
Proof.
  induction ks as [|k ks IH]; intros d vs f Hin; [reflexivity|].
  destruct vs as [|v vs]; [reflexivity|]. simpl.
  rewrite IH by (intros H; apply Hin; now right).
  apply dict_get_set_other. intros ->. apply Hin. now left.
Qed.

Lemma set_fields_get ks : forall d vs j f v,
  NoDup ks ->
  nth_error ks j = Some f -> nth_error vs j = Some v ->
  dict_get (set_fields d ks vs) f = Some v.
Proof.
  induction ks as [|k ks IH]; intros d vs j f v Hnd Hk Hv.
  - destruct j; discriminate.
  - destruct vs as [|v0 vs]; [destruct j; discriminate|].
    inversion Hnd as [|? ? Hnotin Hnd']; subst.
    destruct j as [|j]; simpl in *.
    + injection Hk as <-. injection Hv as <-.
      rewrite set_fields_other by exact Hnotin. apply dict_get_set_same.
    + eapply IH; eassumption.
Qed.

Lemma fields_nodup gp : NoDup (fields gp).
Proof.
  destruct gp; cbn; repeat constructor; cbn; intuition discriminate.
Qed.

Lemma build_records_length gp devs : forall outs,
  List.length (build_records gp devs outs) = List.length devs.
Proof. induction devs as [|dev devs IH]; intros outs; simpl; [|rewrite IH]; reflexivity. Qed.

Lemma build_records_nth gp devs : forall outs i d,
  nth_error devs i = Some (PDict d) ->
  nth_error (build_records gp devs outs) i =
    Some (PDict (set_fields d (fields gp)
                   (map sub_call_value
                      (firstn (List.length (fields gp))
                         (skipn (i * List.length (fields gp)) outs))))).
Proof.
  induction devs as [|dev devs IH]; intros outs i d Hi.
  - destruct i; discriminate.
  - destruct i as [|i]; simpl in Hi.
    + injection Hi as ->. reflexivity.
    + cbn [build_records nth_error]. rewrite (IH _ _ _ Hi), skipn_skipn.
      now rewrite (Nat.add_comm (i * _)).
Qed.

(** Field [j] of record [i] holds the value of answer number
    [i * n + j], where [n] is the number of sub-calls per device. *)
Lemma build_records_field gp devs outs i j d f :
  List.length outs = (List.length (fields gp) * List.length devs)%nat ->
  nth_error devs i = Some (PDict d) ->
  nth_error (fields gp) j = Some f ->
  exists d' out,
    nth_error (build_records gp devs outs) i = Some (PDict d') /\
    nth_error outs (i * List.length (fields gp) + j) = Some out /\
    dict_get d' f = Some (sub_call_value out) /\
    (forall k, ~ In k (fields gp) -> dict_get d' k = dict_get d k).
Proof.
  intros Hlen Hi Hj.
  assert (Hi' : (i < List.length devs)%nat)
    by (apply nth_error_Some; now rewrite Hi).
  assert (Hj' : (j < List.length (fields gp))%nat)
    by (apply nth_error_Some; now rewrite Hj).
  set (n := List.length (fields gp)) in *.
  assert (Hlt : (i * n + j < List.length outs)%nat) by (rewrite Hlen; nia).
  destruct (nth_error outs (i * n + j)) as [out|] eqn:Hout.
  2:{ apply nth_error_Some in Hlt. contradiction. }
  eexists _, out. split; [apply (build_records_nth gp devs outs i d Hi)|].
  split; [reflexivity|]. split.
  - apply (set_fields_get _ _ _ j); [apply fields_nodup | exact Hj |].
    rewrite nth_error_map, nth_error_firstn. fold n.
    apply Nat.ltb_lt in Hj'. rewrite Hj', nth_error_skipn, Hout. reflexivity.
  - intros k Hk. now apply set_fields_other.
Qed.

(** With credentials that do not encode, [__headers] raises before any
    request and every read wrapper returns [None]; so a list call that
    returned a list was made with credentials that encode. *)
Lemma call_get_unsigned E self resource note tr :
  ascii_credentials self = false ->
  fst (call_get E self resource note tr) = Ok PNone.
Proof.
  intros Hc. unfold call_get, try_except, bind at 1, logger, emit, api_get,
    try_except, bind at 1.
  now rewrite (headers_raise E self _ Hc).
Qed.

Lemma list_call_signed E self tr units tr1 :
  getESSList E self tr = (Ok (PList units), tr1) ->
  ascii_credentials self = true.
Proof.
  intros H. destruct (ascii_credentials self) eqn:Hc; [reflexivity|].
  pose proof (call_get_unsigned E self list_url (TryingToCall list_url) tr Hc) as Hn.
  unfold getESSList in H. change (cat [BASEURL; "/getEssList"]) with list_url in H.
  rewrite H in Hn. discriminate.
Qed.

Lemma getdata_run E self gp delay tr units tr1 :
  getESSList E self tr = (Ok units, tr1) ->
  getdata E self gp delay tr = aggregate E self gp delay units tr1.
Proof.
  intros H. unfold getdata, aggregate, try_except.
  now rewrite (bind_ok _ _ _ _ _ H).
Qed.

Lemma aggregate_spec E self gp delay units tr1 :
  ascii_credentials self = true ->
  forallb is_dict units = true ->
  exists seg,
    aggregate E self gp delay (PList units) tr1
      = (Ok (build_records gp (filter has_serial units) (answers seg)), tr1 ++ seg) /\
    schedule E gp delay (filter has_serial units) (calls seg) /\
    List.length (answers seg)
      = (List.length (fields gp) * List.length (filter has_serial units))%nat.
Proof.
  intros Hc Hd.
  destruct (getdata_loop_spec E self gp delay units Hc Hd [] tr1)
    as (seg & Hrun & Hsched & Hlen).
  exists seg. split; [|now split].
  unfold aggregate. apply try_ok. cbn [py_iter]. rewrite bind_lift_ok.
  exact Hrun.
Qed.

Lemma has_serial_dict dev :
  has_serial dev = true -> exists d, dev = PDict d.
Proof. destruct dev; try discriminate. now eexists. Qed.

Lemma build_records_same_entries gp devs : forall outs,
  forallb has_serial devs = true ->
  Forall2 (fun dev r =>
             exists d d', dev = PDict d /\ r = PDict d' /\
               forall k, ~ In k (fields gp) -> dict_get d' k = dict_get d k)
          devs (build_records gp devs outs).
Proof.
  induction devs as [|dev devs IH]; intros outs H; [constructor|].
  cbn [forallb] in H. apply andb_true_iff in H as [Hdev Hrest].
  destruct (has_serial_dict dev Hdev) as [d ->].
  cbn [build_records]. constructor; [|now apply IH].
  eexists d, _. repeat split. intros k Hk. now apply set_fields_other.
Qed.

Lemma filter_forallb {A} (f : A -> bool) l : forallb f (filter f l) = true.
Proof.
  induction l as [|a l IH]; [reflexivity|]. simpl.
  destruct (f a) eqn:Hf; [simpl; now rewrite Hf | exact IH].
Qed.

(** C3. [getdata] over a device list of objects: no sub-call outcome aborts
    the pass.  Every entry with a serial yields a record, and field [j] of
    record [i] is the value of that device's [j]-th sub-call, that is
    [sub_call_value] of answer number [i * n + j] -- [None] whenever that
    answer is a transport or business failure (lemma [call_get_spec]).  So
    with two devices and a failed summary call for the second, both records
    are there and the second has [SumData = None]. *)
Theorem getdata_keeps_partial_records E self gp delay tr units tr1 :
  getESSList E self tr = (Ok (PList units), tr1) ->
  forallb is_dict units = true ->
  let devices := filter has_serial units in
  let n := List.length (fields gp) in
  exists recs seg,
    getdata E self gp delay tr = (Ok recs, tr1 ++ seg) /\
    recs = build_records gp devices (answers seg) /\
    List.length recs = List.length devices /\
    forall i j d f,
      nth_error devices i = Some (PDict d) ->
      nth_error (fields gp) j = Some f ->
      exists d' out,
        nth_error recs i = Some (PDict d') /\
        nth_error (answers seg) (i * n + j) = Some out /\
        dict_get d' f = Some (sub_call_value out).
Proof.
  intros Hlist Hd devices n.
  pose proof (list_call_signed E self tr units tr1 Hlist) as Hc.
  destruct (aggregate_spec E self gp delay units tr1 Hc Hd)
    as (seg & Hrun & _ & Hlen).
  exists (build_records gp devices (answers seg)), seg.
  rewrite (getdata_run E self gp delay tr _ tr1 Hlist).
  split; [exact Hrun|]. split; [reflexivity|].
  split; [apply build_records_length|].
  intros i j d f Hi Hj.
  destruct (build_records_field gp devices (answers seg) i j d f Hlen Hi Hj)
    as (d' & out & H1 & H2 & H3 & _).
  now exists d', out.
Qed.

(** C4. [getdata] over a device list of objects: after the list call, the
    calls in the trace are, device by device in list order and only for
    entries with a serial, summary, delay, daily energy, delay, last power,
    delay, charge configuration, delay, discharge configuration, followed by
    delay and power curve exactly when [get_power] is set ([schedule]); the
    records come back in the order of the list, each being its entry with
    the added fields: the returned list is [build_records] of the entries
    with a serial and of the answers to those calls, taken in call order,
    and every record agrees with its entry on the keys that are not added
    fields. *)
Theorem getdata_call_order E self gp delay tr units tr1 :
  getESSList E self tr = (Ok (PList units), tr1) ->
  forallb is_dict units = true ->
  exists recs seg,
    getdata E self gp delay tr = (Ok recs, tr1 ++ seg) /\
    schedule E gp delay (filter has_serial units) (calls seg) /\
    recs = build_records gp (filter has_serial units) (answers seg) /\
    List.length (answers seg)
      = (List.length (fields gp) * List.length (filter has_serial units))%nat /\
    Forall2 (fun dev r =>
               exists d d', dev = PDict d /\ r = PDict d' /\
                 forall k, ~ In k (fields gp) -> dict_get d' k = dict_get d k)
            (filter has_serial units) recs.
Proof.
  intros Hlist Hd.
  pose proof (list_call_signed E self tr units tr1 Hlist) as Hc.
  destruct (aggregate_spec E self gp delay units tr1 Hc Hd)
    as (seg & Hrun & Hsched & Hlen).
  exists (build_records gp (filter has_serial units) (answers seg)), seg.
  rewrite (getdata_run E self gp delay tr _ tr1 Hlist).
  split; [exact Hrun|]. split; [exact Hsched|].
  split; [reflexivity|]. split; [exact Hlen|].
  apply build_records_same_entries, filter_forallb.
Qed.

Lemma bind_ext {A B} (m : M A) (k1 k2 : A -> M B) tr :
  (forall a tr', k1 a tr' = k2 a tr') -> bind m k1 tr = bind m k2 tr.
Proof.
  intros H. unfold bind. destruct (m tr) as [[a|e] tr']; [apply H | reflexivity].
Qed.

Lemma no_serial_contains u :
  is_dict u = true -> has_serial u = false -> py_contains u "sysSn" = Ok false.
Proof. destruct u; try discriminate. simpl. now intros _ ->. Qed.

Lemma getdata_loop_skip E self gp delay u after :
  py_contains u "sysSn" = Ok false ->
  forall before acc tr,
    getdata_loop E self gp delay (before ++ u :: after) acc tr
    = getdata_loop E self gp delay (before ++ after) acc tr.
Proof.
  intros Hu. induction before as [|x before IH]; intros acc tr.
  - cbn [app getdata_loop]. now rewrite Hu, bind_lift_ok.
  - cbn [app getdata_loop]. apply bind_ext. intros [|] tr'; [|apply IH].
    apply bind_ext. intros x' tr''. apply bind_ext. intros _ tr3. apply IH.
Qed.

Lemma getdata_loop_none E self gp delay units :
  forallb (fun u => is_dict u && negb (has_serial u)) units = true ->
  forall acc tr, getdata_loop E self gp delay units acc tr = (Ok acc, tr).
Proof.
  induction units as [|u rest IH]; intros H acc tr; [reflexivity|].
  cbn [forallb] in H. apply andb_true_iff in H as [Hu Hrest].
  apply andb_true_iff in Hu as [Hd Hs]. apply negb_true_iff in Hs.
  cbn [getdata_loop]. rewrite (no_serial_contains u Hd Hs), bind_lift_ok.
  now apply IH.
Qed.

(** C10. When the list call returns no entry with a serial -- the empty
    list included -- [getdata] returns the empty list without raising and the
    trace ends where the list call left it: no sub-call, no sleep.  An entry
    without ["sysSn"] anywhere in the list is passed over: [getdata]
    continues from the list call exactly as it does for the list without
    that entry, so it causes no call and no delay and yields no record. *)
Theorem getdata_skips_entries_without_serial E self gp delay tr units tr1 :
  getESSList E self tr = (Ok (PList units), tr1) ->
  (forallb (fun u => is_dict u && negb (has_serial u)) units = true ->
   getdata E self gp delay tr = (Ok [], tr1)) /\
  (forall before u after,
      units = before ++ u :: after ->
      is_dict u = true -> has_serial u = false ->
      getdata E self gp delay tr
      = aggregate E self gp delay (PList (before ++ after)) tr1).
Proof.
  intros Hlist. rewrite (getdata_run E self gp delay tr _ tr1 Hlist). split.
  - intros Hnone. unfold aggregate. apply try_ok.
    cbn [py_iter]. rewrite bind_lift_ok. now apply getdata_loop_none.
  - intros before u after -> Hd Hs. unfold aggregate, try_except.
    cbn [py_iter]. rewrite !bind_lift_ok.
    now rewrite (getdata_loop_skip E self gp delay u after
                   (no_serial_contains u Hd Hs)).
Qed.

(* ================================================================== *)
(** ** Transport failures *)
(* ================================================================== *)

Lemma transport_failure_value out :
  transport_failure out = true -> sub_call_value out = PNone.
Proof.
  destruct out as [|status [j|]]; try reflexivity.
  simpl. rewrite orb_false_r. intros H. apply negb_true_iff in H.
  rewrite H. now destruct j.
Qed.

Lemma get_outcome_raises path out tr :
  transport_failure out = true ->
  exists e seg, get_outcome path out tr = (Err e, tr ++ seg).
Proof.
  unfold get_outcome. destruct out as [|status body]; intros H.
  - run_monad. now eexists _, [_].
  - simpl in H. destruct (Z.eqb_spec status 200) as [->|Hne].
    + destruct body; [discriminate|]. run_monad. simpl. now eexists _, [_].
    + apply Z.eqb_neq in Hne. run_monad. rewrite Hne.
      destruct (400 <=? status); [now eexists _, [_]|].
      simpl. rewrite <- app_assoc. now eexists _, [_; _].
Qed.

Lemma post_outcome_raises path out tr :
  transport_failure out = true ->
  exists e seg, post_outcome path out tr = (Err e, tr ++ seg).
Proof.
  unfold post_outcome. destruct out as [|status body]; intros H.
  - run_monad. now eexists _, [_].
  - simpl in H. destruct (Z.eqb_spec status 200) as [->|Hne].
    + destruct body; [discriminate|]. run_monad. simpl. now eexists _, [_].
    + apply Z.eqb_neq in Hne. run_monad. rewrite Hne.
      destruct (400 <=? status); [now eexists _, [_]|].
      simpl. rewrite <- app_assoc. now eexists _, [_; _].
Qed.

Lemma list_call_fails E self tr :
  ascii_credentials self = true ->
  transport_failure
    (answer E self GET list_url (PDict [])
       (tr ++ [EvLog DEBUG (TryingToCall list_url)])) = true ->
  exists tr1, getESSList E self tr = (Ok PNone, tr1).
Proof.
  intros Hc Hfail.
  destruct (call_get_spec E self list_url (TryingToCall list_url) tr Hc)
    as (seg & Hrun & _).
  rewrite (transport_failure_value _ Hfail) in Hrun.
  now exists (tr ++ seg).
Qed.

Lemma aggregate_none E self gp delay tr1 :
  aggregate E self gp delay PNone tr1
  = (Err TypeError, tr1 ++ [EvLog ERROR (LogExn TypeError)]).
Proof. reflexivity. Qed.

(** C2, as the code has it.  On a transport failure (connection error,
    status other than 200, body that is not JSON) [api_get] and [api_post]
    raise.  The read wrappers catch what [api_get] raises and return
    [None]: so does [getESSList], and [getdata], handed [None] for the
    device list, raises [TypeError] and returns no record. *)
Theorem transport_failure_outcomes E self gp delay tr :
  ascii_credentials self = true ->
  (forall path json tr',
      transport_failure (answer E self GET path json tr') = true ->
      exists e, fst (api_get E self path json tr') = Err e) /\
  (forall path json tr',
      transport_failure (answer E self POST path json tr') = true ->
      exists e, fst (api_post E self path json tr') = Err e) /\
  (forall resource note tr',
      transport_failure
        (answer E self GET resource (PDict []) (tr' ++ [EvLog DEBUG note])) = true ->
      fst (call_get E self resource note tr') = Ok PNone) /\
  (transport_failure
     (answer E self GET list_url (PDict [])
        (tr ++ [EvLog DEBUG (TryingToCall list_url)])) = true ->
   fst (getESSList E self tr) = Ok PNone /\
   fst (getdata E self gp delay tr) = Err TypeError).
Proof.
  intros Hc. split; [|split; [|split]].
  - intros path json tr' H. rewrite (api_get_run E self path json tr' Hc).
    destruct (get_outcome_raises path _
                (tr' ++ [EvTime (clock E tr');
                         EvHttp (sent E self GET path json tr')
                                (answer E self GET path json tr')]) H)
      as (e & seg & ->). now exists e.
  - intros path json tr' H. rewrite (api_post_run E self path json tr' Hc).
    destruct (post_outcome_raises path _
                (tr' ++ [EvTime (clock E tr');
                         EvHttp (sent E self POST path json tr')
                                (answer E self POST path json tr')]) H)
      as (e & seg & ->). now exists e.
  - intros resource note tr' H.
    destruct (call_get_spec E self resource note tr' Hc) as (seg & -> & _).
    simpl. now rewrite (transport_failure_value _ H).
  - intros H. destruct (list_call_fails E self tr Hc H) as (tr1 & Hrun).
    rewrite (getdata_run E self gp delay tr _ tr1 Hrun), Hrun, aggregate_none.
    now split.
Qed.

(* ================================================================== *)
(** ** Authenticator *)
(* ================================================================== *)

Lemma authenticate_loop_spec units :
  forallb is_dict units = true ->
  forall b tr,
    authenticate_loop units b tr = (Ok (b || existsb has_serial units), tr).
Proof.
  induction units as [|u rest IH]; intros H b tr.
  - simpl. now rewrite orb_false_r.
  - cbn [forallb] in H. apply andb_true_iff in H as [Hu Hrest].
    destruct u; try discriminate.
    cbn [authenticate_loop py_contains]. rewrite bind_lift_ok, (IH Hrest).
    cbn [existsb has_serial]. destruct (dict_has d "sysSn"), b; reflexivity.
Qed.

(** C5. Let the list call return [v], either [None] or a list of objects.
    [authenticate] returns true exactly when [v] is a list with an entry
    that has ["sysSn"], and false when [v] is a list without one (the empty
    list included).  When [v] is [None] it raises; a transport failure of the
    probe makes the list call return [None], so [authenticate] raises then
    ([TypeError], from iterating [None]) and does not return false. *)
Theorem authenticate_spec E self tr v tr1 :
  getESSList E self tr = (Ok v, tr1) ->
  device_list_shape v = true ->
  (fst (authenticate E self tr) = Ok true <->
   exists units, v = PList units /\ existsb has_serial units = true) /\
  (forall units, v = PList units -> existsb has_serial units = false ->
                 fst (authenticate E self tr) = Ok false) /\
  (v = PNone -> fst (authenticate E self tr) = Err TypeError) /\
  (ascii_credentials self = true ->
   transport_failure
     (answer E self GET list_url (PDict [])
        (tr ++ [EvLog DEBUG (TryingToCall list_url)])) = true ->
   fst (authenticate E self tr) = Err TypeError).
Proof.
  intros Hlist Hshape.
  assert (Hv : v = PNone \/
               (exists units, v = PList units /\ forallb is_dict units = true)).
  { destruct v; try discriminate; [now left | right; now eexists]. }
  assert (Hrun : authenticate E self tr =
                 try_except (items <- lift (py_iter v) ;; authenticate_loop items false)
                   (fun e => logger ERROR (LogExn e) ;;; raise e) tr1).
  { unfold authenticate, try_except. now rewrite (bind_ok _ _ _ _ _ Hlist). }
  assert (Hnone : v = PNone -> fst (authenticate E self tr) = Err TypeError).
  { intros ->. rewrite Hrun. reflexivity. }
  assert (Hsome : forall units, v = PList units -> forallb is_dict units = true ->
                  fst (authenticate E self tr) = Ok (existsb has_serial units)).
  { intros units -> Hd. rewrite Hrun. unfold try_except. cbn [py_iter].
    rewrite bind_lift_ok, (authenticate_loop_spec units Hd). reflexivity. }
  split; [|split; [|split]].
  - split.
    + intros Htrue. destruct Hv as [->|(units & -> & Hd)].
      * rewrite (Hnone eq_refl) in Htrue. discriminate.
      * exists units. split; [reflexivity|].
        rewrite (Hsome units eq_refl Hd) in Htrue. now injection Htrue.
    + intros (units & -> & Hex). destruct Hv as [Hv|(units' & Hv & Hd)];
        [discriminate|]. injection Hv as <-.
      now rewrite (Hsome units eq_refl Hd), Hex.
  - intros units -> Hex. destruct Hv as [Hv|(units' & Hv & Hd)];
      [discriminate|]. injection Hv as <-.
    now rewrite (Hsome units eq_refl Hd), Hex.
  - exact Hnone.
  - intros Hc Hfail. destruct (list_call_fails E self tr Hc Hfail) as (tr1' & Hrun').
    rewrite Hrun' in Hlist. injection Hlist as <- _. now apply Hnone.
Qed.

(* ================================================================== *)
(** ** POST envelopes and the configuration mutators *)
(* ================================================================== *)

(** C6. A POST answered with status 200 and an object envelope [d].  With
    ["msg"] equal to ["Success"] the ["data"] entry is returned, null or not
    (and an error record is logged when it is not null).  Without the
    success marker [api_post] returns [None] -- and the trace gains the clock
    read and the request only: no record is logged for the anomalous
    response. *)
Theorem api_post_envelope E self path json tr d :
  ascii_credentials self = true ->
  answer E self POST path json tr = Response 200 (Some (PDict d)) ->
  let tr' := tr ++ [EvTime (clock E tr);
                    EvHttp (sent E self POST path json tr)
                           (Response 200 (Some (PDict d)))] in
  api_post E self path json tr =
    match dict_get d "msg" with
    | None => (Ok PNone, tr')
    | Some msg =>
        if py_str_eq msg "Success" then
          match dict_get d "data" with
          | Some PNone => (Ok PNone, tr')
          | Some data =>
              (Ok data, tr' ++ [EvLog ERROR (UnexpectedJson (PDict d) path)])
          | None =>
              (Err (KeyError "data"), tr' ++ [EvLog ERROR (LogExn (KeyError "data"))])
          end
        else (Ok PNone, tr')
    end.
Proof.
  intros Hc Hans tr'. rewrite (api_post_run E self path json tr Hc), Hans.
  fold tr'. unfold post_outcome. run_monad. simpl.
  destruct (dict_get d "msg") as [msg|]; [|reflexivity].
  destruct (py_str_eq msg "Success"); [|reflexivity].
  destruct (dict_get d "data") as [data|]; [|reflexivity].
  destruct data; reflexivity.
Qed.

(** C8. [setbatterycharge] and [setbatterydischarge] start from the empty
    list and assign ["sysSn"] on it: for every argument the assignment
    raises [TypeError], which is logged and raised again, and nothing else
    happens -- no request is sent. *)
Theorem setbattery_never_posts E self tr
    (serial enabled start1 end1 start2 end2 soc : pyval) :
  setbatterycharge E self serial enabled start1 end1 start2 end2 soc tr
    = (Err TypeError, tr ++ [EvLog ERROR (LogExn TypeError)]) /\
  setbatterydischarge E self serial enabled start1 end1 start2 end2 soc tr
    = (Err TypeError, tr ++ [EvLog ERROR (LogExn TypeError)]).
Proof. split; reflexivity. Qed.

(* ================================================================== *)
(** ** Signer *)
(* ================================================================== *)

Lemma length_be_bytes n x : List.length (SHA512.be_bytes n x) = n.
Proof. induction n as [|n IH]; simpl; [|rewrite IH]; reflexivity. Qed.

Lemma length_digest msg : List.length (SHA512.digest msg) = 64%nat.
Proof.
  unfold SHA512.digest. cbv zeta.
  rewrite !length_app, !length_be_bytes. reflexivity.
Qed.

Lemma length_hex bs : String.length (SHA512.hex bs) = (2 * List.length bs)%nat.
Proof. induction bs as [|b bs IH]; simpl; [|rewrite IH; lia]; reflexivity. Qed.

Lemma length_hexdigest msg : String.length (SHA512.hexdigest msg) = 128%nat.
Proof. unfold SHA512.hexdigest. now rewrite length_hex, length_digest. Qed.

Lemma string_length_app a b :
  String.length (a ++ b)%string = (String.length a + String.length b)%nat.
Proof. induction a as [|c a IH]; simpl; [|rewrite IH]; reflexivity. Qed.

Lemma append_inv_head a x y : (a ++ x = a ++ y)%string -> x = y.
Proof. induction a as [|c a IH]; simpl; [auto|]. intros [= H]. now apply IH. Qed.

Lemma append_inv_tail b : forall x y, (x ++ b = y ++ b)%string -> x = y.
Proof.
  induction x as [|c x IH]; intros [|c' y] H; simpl in H.
  - reflexivity.
  - apply (f_equal String.length) in H. simpl in H.
    rewrite string_length_app in H. lia.
  - apply (f_equal String.length) in H. simpl in H.
    rewrite string_length_app in H. lia.
  - injection H as -> H. f_equal. now apply IH.
Qed.

Lemma bytes_of_string_inj a b :
  SHA512.bytes_of_string a = SHA512.bytes_of_string b -> a = b.
Proof.
  unfold SHA512.bytes_of_string. revert b.
  induction a as [|c a IH]; intros [|c' b] H; simpl in H; try discriminate.
  - reflexivity.
  - injection H as Hc H. f_equal; [|now apply IH].
    apply Nat2Z.inj in Hc.
    rewrite <- (ascii_nat_embedding c), <- (ascii_nat_embedding c'). now f_equal.
Qed.

Lemma py_str_int_inj t t' : py_str_int t = py_str_int t' -> t = t'.
Proof.
  unfold py_str_int. intros H.
  apply DecimalZ.to_int_inj.
  assert (Hnn : forall z, Z.to_int z <> Decimal.Pos Decimal.Nil /\
                          Z.to_int z <> Decimal.Neg Decimal.Nil).
  { intros [|p|p]; simpl; split; try discriminate; intros [= Hp];
      now apply DecimalPos.Unsigned.to_uint_nonnil in Hp. }
  apply (f_equal NilZero.int_of_string) in H.
  rewrite !NilZero.isi in H by apply Hnn. now injection H.
Qed.

(** C9, as the code has it.  With credentials that encode, [__headers]
    returns headers whose ["sign"] is the hex digest -- 128 hex digits, 512
    bits -- of SHA-512 over the bytes of appID + appSecret + decimal
    timestamp, and whose ["timestamp"] is that same decimal timestamp.  The
    signature is a function of the hashed message alone, hence the same for
    the same triple; changing exactly one of the three inputs changes the
    message, and changing the timestamp changes the timestamp header. *)
Theorem signature_spec E self tr :
  ascii_credentials self = true ->
  let t := clock E tr in
  (exists hdrs,
      headers E self tr = (Ok hdrs, tr ++ [EvTime t]) /\
      header "sign" hdrs
        = Some (SHA512.hexdigest
                  (SHA512.bytes_of_string
                     (cat [appID self; appSecret self; py_str_int t]))) /\
      header "timestamp" hdrs = Some (py_str_int t)) /\
  String.length (signature (appID self) (appSecret self) t) = 128%nat /\
  (forall id secret t1 id' secret' t2,
      message id secret t1 = message id' secret' t2 ->
      signature id secret t1 = signature id' secret' t2) /\
  (forall id id' secret t1, id <> id' ->
      message id secret t1 <> message id' secret t1) /\
  (forall id secret secret' t1, secret <> secret' ->
      message id secret t1 <> message id secret' t1) /\
  (forall id secret t1 t2, t1 <> t2 ->
      message id secret t1 <> message id secret t2 /\
      py_str_int t1 <> py_str_int t2).
Proof.
  intros Hc t. split; [|split; [|split; [|split; [|split]]]].
  - exists (signed_headers self t). split; [apply (headers_run E self tr Hc)|].
    split; reflexivity.
  - apply length_hexdigest.
  - intros id secret t1 id' secret' t2 H. unfold signature. now rewrite H.
  - intros id id' secret t1 Hne H. apply bytes_of_string_inj in H.
    apply Hne. unfold cat in H. simpl in H. now apply append_inv_tail in H.
  - intros id secret secret' t1 Hne H. apply bytes_of_string_inj in H.
    apply Hne. unfold cat in H. simpl in H.
    apply append_inv_head in H. now apply append_inv_tail in H.
  - intros id secret t1 t2 Hne.
    assert (Hts : py_str_int t1 <> py_str_int t2)
      by (intros H; now apply Hne, py_str_int_inj).
    split; [|exact Hts].
    intros H. apply bytes_of_string_inj in H. apply Hts.
    unfold cat in H. simpl in H.
    apply append_inv_head in H. now apply append_inv_head in H.
Qed.

(* ================================================================== *)
(** ** Worked examples *)
(* ================================================================== *)

(** An envelope with the success marker and no ["data"] key. *)
Lemma api_get_envelope_witness :
  fst (api_get (always (PDict [("msg", PStr "Success")])) demo list_url (PDict []) [])
  = Err (KeyError "data").
Proof.
  apply (api_get_envelope (always (PDict [("msg", PStr "Success")])) demo
           list_url (PDict []) [] [("msg", PStr "Success")]);
    vm_compute; reflexivity.
Defined.

(** The same client on the three sound envelopes of the specification. *)
Example api_get_examples :
  fst (api_get (always (envelope "Success" (PList [PDict [("sysSn", PStr "X1")]])))
         demo list_url (PDict []) [])
    = Ok (PList [PDict [("sysSn", PStr "X1")]]) /\
  fst (api_get (always (PDict [("data", PList [PInt 1])])) demo list_url (PDict []) [])
    = Ok PNone /\
  fst (api_get (always (envelope "Success" PNone)) demo list_url (PDict []) [])
    = Ok PNone.
Proof. repeat apply conj; vm_compute; reflexivity. Qed.

(** C2 as stated fails: with the server unreachable [getESSList] does not
    raise, it returns [None]; and the error [getdata] raises is [TypeError],
    not the connection error of the list call. *)
Lemma transport_failure_is_swallowed :
  transport_failure
    (answer down demo GET list_url (PDict []) [EvLog DEBUG (TryingToCall list_url)])
    = true /\
  (exists e, fst (api_get down demo list_url (PDict [])
                    [EvLog DEBUG (TryingToCall list_url)]) = Err e /\
             e = ClientConnectionError) /\
  fst (getESSList down demo []) = Ok PNone /\
  fst (getdata down demo false no_delay []) = Err TypeError /\
  fst (getdata down demo false no_delay []) <> Err ClientConnectionError.
Proof.
  split; [vm_compute; reflexivity|].
  split; [exists ClientConnectionError; split; vm_compute; reflexivity|].
  split; [vm_compute; reflexivity|].
  split; [vm_compute; reflexivity|].
  vm_compute. discriminate.
Qed.

Lemma transport_failure_outcomes_witness :
  fst (getESSList down demo []) = Ok PNone /\
  fst (getdata down demo false no_delay []) = Err TypeError.
Proof.
  apply (transport_failure_outcomes down demo false no_delay []);
    vm_compute; reflexivity.
Defined.

(** Two devices, the second summary refused: two records, the second with
    [SumData = None] and its other fields filled. *)
Lemma getdata_keeps_partial_records_witness :
  (let devices := filter has_serial two_units in
   let n := List.length (fields false) in
   exists recs seg,
     getdata two_devices demo false no_delay []
       = (Ok recs, snd (getESSList two_devices demo []) ++ seg) /\
     recs = build_records false devices (answers seg) /\
     List.length recs = List.length devices /\
     forall i j d f,
       nth_error devices i = Some (PDict d) ->
       nth_error (fields false) j = Some f ->
       exists d' out,
         nth_error recs i = Some (PDict d') /\
         nth_error (answers seg) (i * n + j) = Some out /\
         dict_get d' f = Some (sub_call_value out)) /\
  fst (getdata two_devices demo false no_delay []) =
    Ok [ PDict [ ("sysSn", PStr "X1");
                 ("SumData", PDict [("ok", PBool true)]);
                 ("OneDateEnergy", PDict [("ok", PBool true)]);
                 ("LastPower", PDict [("ok", PBool true)]);
                 ("ChargeConfig", PDict [("ok", PBool true)]);
                 ("DisChargeConfig", PDict [("ok", PBool true)]) ];
         PDict [ ("sysSn", PStr "X2");
                 ("SumData", PNone);
                 ("OneDateEnergy", PDict [("ok", PBool true)]);
                 ("LastPower", PDict [("ok", PBool true)]);
                 ("ChargeConfig", PDict [("ok", PBool true)]);
                 ("DisChargeConfig", PDict [("ok", PBool true)]) ] ].
Proof.
  split.
  - apply (getdata_keeps_partial_records two_devices demo false no_delay []
             two_units (snd (getESSList two_devices demo [])));
      vm_compute; reflexivity.
  - vm_compute. reflexivity.
Defined.

(** The same two devices with the power curve asked for. *)
Lemma getdata_call_order_witness :
  exists recs seg,
    getdata two_devices demo true no_delay []
      = (Ok recs, snd (getESSList two_devices demo []) ++ seg) /\
    schedule two_devices true no_delay (filter has_serial two_units) (calls seg) /\
    recs = build_records true (filter has_serial two_units) (answers seg) /\
    List.length (answers seg)
      = (List.length (fields true) * List.length (filter has_serial two_units))%nat /\
    Forall2 (fun dev r =>
               exists d d', dev = PDict d /\ r = PDict d' /\
                 forall k, ~ In k (fields true) -> dict_get d' k = dict_get d k)
            (filter has_serial two_units) recs.
Proof.
  apply (getdata_call_order two_devices demo true no_delay []
           two_units (snd (getESSList two_devices demo [])));
    vm_compute; reflexivity.
Defined.

Example getdata_calls_example :
  calls (snd (getdata mixed demo true no_delay [])) =
    [ Call GET "https://openapi.alphaess.com/api/getEssList";
      Call GET "https://openapi.alphaess.com/api/getSumDataForCustomer?sysSn=X1";
      Sleep no_delay;
      Call GET "https://openapi.alphaess.com/api/getOneDateEnergyBySn?sysSn=X1&queryDate=2026-11-03";
      Sleep no_delay;
      Call GET "https://openapi.alphaess.com/api/getLastPowerData?sysSn=X1";
      Sleep no_delay;
      Call GET "https://openapi.alphaess.com/api/getChargeConfigInfo?sysSn=X1";
      Sleep no_delay;
      Call GET "https://openapi.alphaess.com/api/getDisChargeConfigInfo?sysSn=X1";
      Sleep no_delay;
      Call GET "https://openapi.alphaess.com/api/getOneDayPowerBySn?sysSn=X1&queryDate=2026-11-03" ].
Proof. vm_compute. reflexivity. Qed.

Lemma authenticate_spec_witness :
  (fst (authenticate two_devices demo []) = Ok true <->
   exists units, PList two_units = PList units /\ existsb has_serial units = true) /\
  (forall units, PList two_units = PList units -> existsb has_serial units = false ->
                 fst (authenticate two_devices demo []) = Ok false) /\
  (PList two_units = PNone -> fst (authenticate two_devices demo []) = Err TypeError) /\
  (ascii_credentials demo = true ->
   transport_failure
     (answer two_devices demo GET list_url (PDict [])
        ([] ++ [EvLog DEBUG (TryingToCall list_url)])) = true ->
   fst (authenticate two_devices demo []) = Err TypeError).
Proof.
  apply (authenticate_spec two_devices demo [] (PList two_units)
           (snd (getESSList two_devices demo [])));
    vm_compute; reflexivity.
Defined.

Example authenticate_examples :
  fst (authenticate (always (envelope "Success" (PList [PDict [("sysSn", PStr "X1")]])))
         demo []) = Ok true /\
  fst (authenticate (always (envelope "Success" (PList []))) demo []) = Ok false /\
  fst (authenticate (always (envelope "Failed" PNone)) demo []) = Err TypeError /\
  fst (authenticate down demo []) = Err TypeError.
Proof. repeat apply conj; vm_compute; reflexivity. Qed.

Lemma api_post_envelope_witness :
  api_post (always (envelope "Failed" PNone)) demo "updateChargeConfigInfo" (PDict []) []
  = (Ok PNone,
     [ EvTime 1700000000;
       EvHttp (sent (always (envelope "Failed" PNone)) demo POST
                 "updateChargeConfigInfo" (PDict []) [])
              (Response 200 (Some (envelope "Failed" PNone))) ]).
Proof.
  apply (api_post_envelope (always (envelope "Failed" PNone)) demo
           "updateChargeConfigInfo" (PDict []) []
           [("msg", PStr "Failed"); ("data", PNone)]);
    vm_compute; reflexivity.
Defined.

Lemma query_date_is_forced_witness :
  (exists v seg,
      getOneDateEnergyBySn two_devices demo (PStr "X1") (PStr "1999-12-31") []
        = (Ok v, [] ++ seg) /\
      calls seg = [Call GET (cat [BASEURL; "/getOneDateEnergyBySn?sysSn=";
                                  py_str two_devices (PStr "X1"); "&queryDate=";
                                  localdate two_devices []])])
  /\
  (exists v seg,
      getOneDayPowerBySn two_devices demo (PStr "X1") (PStr "1999-12-31") []
        = (Ok v, [] ++ seg) /\
      calls seg = [Call GET (cat [BASEURL; "/getOneDayPowerBySn?sysSn=";
                                  py_str two_devices (PStr "X1"); "&queryDate=";
                                  localdate two_devices []])]).
Proof.
  apply (query_date_is_forced two_devices demo (PStr "X1") (PStr "1999-12-31") []).
  vm_compute. reflexivity.
Defined.

Example query_date_examples :
  calls (snd (getOneDateEnergyBySn two_devices demo (PStr "X1") (PStr "1999-12-31") []))
    = [Call GET "https://openapi.alphaess.com/api/getOneDateEnergyBySn?sysSn=X1&queryDate=2026-11-03"] /\
  calls (snd (getOneDayPowerBySn two_devices demo (PStr "X1") (PStr "2026-11-03") []))
    = [Call GET "https://openapi.alphaess.com/api/getOneDayPowerBySn?sysSn=X1&queryDate=2026-11-03"].
Proof. apply conj; vm_compute; reflexivity. Qed.

(** C9 as stated fails: moving a character from the secret to the id
    changes two of the inputs and leaves the signature as it was. *)
Lemma signature_unchanged_by_regrouping :
  Client "ab" "c" <> Client "a" "bc" /\
  exists h1 h2,
    fst (headers down (Client "ab" "c") []) = Ok h1 /\
    fst (headers down (Client "a" "bc") []) = Ok h2 /\
    header "sign" h1 = header "sign" h2.
Proof.
  split; [discriminate|].
  eexists _, _. split; [vm_compute; reflexivity|].
  split; vm_compute; reflexivity.
Qed.

Lemma signature_spec_witness :
  (exists hdrs,
      headers down demo [] = (Ok hdrs, [] ++ [EvTime 1700000000]) /\
      header "sign" hdrs
        = Some (SHA512.hexdigest
                  (SHA512.bytes_of_string
                     (cat [appID demo; appSecret demo; py_str_int 1700000000]))) /\
      header "timestamp" hdrs = Some (py_str_int 1700000000)) /\
  String.length (signature (appID demo) (appSecret demo) 1700000000) = 128%nat.
Proof.
  destruct (signature_spec down demo [] eq_refl) as (H1 & H2 & _).
  split; [exact H1 | exact H2].
Defined.

Example signature_example :
  signature "id" "secret" 1700000000 =
  "58aa64553f4341e0332cf37d8f17a597837a87f742187e090b21f39e81d1c3bd6e227c14282464ebe8de49b4d8962eab9268d345429f52b3be44fa036b019b03".
Proof. vm_compute. reflexivity. Qed.

(** Test vectors of SHA-512: the empty message, one block, and messages of
    111, 112 and 200 bytes around the padding boundary. *)
Example sha512_vectors :
  SHA512.hexdigest [] =
  "cf83e1357eefb8bdf1542850d66d8007d620e4050b5715dc83f4a921d36ce9ce47d0d13c5d85f2b0ff8318d2877eec2f63b931bd47417a81a538327af927da3e" /\
  SHA512.hexdigest (SHA512.bytes_of_string "abc") =
  "ddaf35a193617abacc417349ae20413112e6fa4e89a97ea20a9eeee64b55d39a2192992a274fc1a836ba3c23a3feebbd454d4423643ce80e2a9ac94fa54ca49f" /\
  SHA512.hexdigest (repeat 97 111) =
  "fa9121c7b32b9e01733d034cfc78cbf67f926c7ed83e82200ef86818196921760b4beff48404df811b953828274461673c68d04e297b0eb7b2b4d60fc6b566a2" /\
  SHA512.hexdigest (repeat 97 112) =
  "c01d080efd492776a1c43bd23dd99d0a2e626d481e16782e75d54c2503b5dc32bd05f0f1ba33e568b88fd2d970929b719ecbb152f58f130a407c8830604b70ca" /\
  SHA512.hexdigest (repeat 97 200) =
  "4b11459c33f52a22ee8236782714c150a3b2c60994e9acee17fe68947a3e6789f31e7668394592da7bef827cddca88c4e6f86e4df7ed1ae6cba71f3e98faee9f".
Proof. repeat apply conj; vm_compute; reflexivity. Qed.

Lemma getdata_skips_entries_without_serial_witness :
  (forallb (fun u => is_dict u && negb (has_serial u)) mixed_units = true ->
   getdata mixed demo false no_delay []
     = (Ok [], snd (getESSList mixed demo []))) /\
  (forall before u after,
      mixed_units = before ++ u :: after ->
      is_dict u = true -> has_serial u = false ->
      getdata mixed demo false no_delay []
      = aggregate mixed demo false no_delay (PList (before ++ after))
          (snd (getESSList mixed demo []))).
Proof.
  apply (getdata_skips_entries_without_serial mixed demo false no_delay []
           mixed_units (snd (getESSList mixed demo []))).
  vm_compute. reflexivity.
Defined.

Example getdata_skip_examples :
  getdata (always (envelope "Success" (PList []))) demo true no_delay []
    = (Ok [], snd (getESSList (always (envelope "Success" (PList []))) demo [])) /\
  getdata (always (envelope "Success" (PList [PDict [("name", PStr "spare")]])))
      demo true no_delay []
    = (Ok [],
       snd (getESSList (always (envelope "Success" (PList [PDict [("name", PStr "spare")]])))
              demo [])) /\
  fst (getdata mixed demo false no_delay []) =
    Ok [ PDict [ ("sysSn", PStr "X1"); ("SumData", PInt 1); ("OneDateEnergy", PInt 1);
                 ("LastPower", PInt 1); ("ChargeConfig", PInt 1);
                 ("DisChargeConfig", PInt 1) ] ].
Proof. repeat apply conj; vm_compute; reflexivity. Qed.

(** The lower-level update operation builds a dict and does post. *)
Example update_posts_example :
  calls (snd (updateChargeConfigInfo (always (envelope "Success" PNone)) demo
                (PStr "X1") (PInt 90) (PInt 1) (PStr "06:00") (PStr "00:00")
                (PStr "01:00") (PStr "00:00") []))
    = [Call POST "https://openapi.alphaess.com/api/updateChargeConfigInfo"] /\
  calls (snd (setbatterycharge (always (envelope "Success" PNone)) demo
                (PStr "X1") (PBool true) (PStr "01:00") (PStr "06:00")
                (PStr "00:00") (PStr "00:00") (PInt 90) []))
    = [].
Proof. apply conj; vm_compute; reflexivity. Qed.

(* ================================================================== *)
(** ** Further properties: the endpoint wrappers *)
(* ================================================================== *)

Lemma requests_app a b : requests (a ++ b) = requests a ++ requests b.
Proof. apply flat_map_app. Qed.

Lemma logs_only_requests seg : forallb is_log seg = true -> requests seg = [].
Proof.
  induction seg as [|e seg IH]; [reflexivity|].
  destruct e; simpl; try discriminate. exact IH.
Qed.

(** [api_post] after the answer: it only logs, and what it returns is read
    off the answer as for a GET. *)
Lemma post_outcome_spec path out tr :
  exists r seg,
    post_outcome path out tr = (r, tr ++ seg) /\
    forallb is_log seg = true /\
    match r with
    | Ok v => v = sub_call_value out
    | Err _ => sub_call_value out = PNone
    end.
Proof.
  unfold post_outcome.
  destruct out as [|status body].
  { run_monad. eexists _, [_]. repeat split. }
  destruct (Z.eqb_spec status 200) as [->|Hne].
  - destruct body as [j|].
    2:{ run_monad. simpl. eexists _, [_]. repeat split. }
    destruct j as [| b | z | f | s | l | d]; simpl sub_call_value;
      try (run_monad; simpl; eexists _, [_]; repeat split; fail).
    + run_monad. simpl. destruct (str_contains "msg" s);
        [eexists _, [_] | eexists _, []; rewrite app_nil_r]; repeat split.
    + run_monad. simpl. destruct (existsb _ l);
        [eexists _, [_] | eexists _, []; rewrite app_nil_r]; repeat split.
    + run_monad. simpl.
      destruct (dict_get d "msg") as [msg|].
      2:{ eexists _, []. rewrite app_nil_r. repeat split. }
      destruct (py_str_eq msg "Success").
      2:{ eexists _, []. rewrite app_nil_r. repeat split.
          destruct (dict_get d "data"); reflexivity. }
      destruct (dict_get d "data") as [data|];
        [|eexists _, [_]; repeat split].
      destruct data; try (eexists _, [_]; repeat split; fail).
      eexists _, []. rewrite app_nil_r. repeat split.
  - apply Z.eqb_neq in Hne.
    assert (Hv : sub_call_value (Response status body) = PNone).
    { simpl. rewrite Hne. destruct body as [[]|]; reflexivity. }
    rewrite Hv. run_monad. rewrite Hne.
    destruct (400 <=? status).
    + eexists _, [_]. repeat split.
    + simpl. rewrite <- app_assoc. eexists _, [_; _]. repeat split.
Qed.

(** The exact shape of what a read wrapper adds to the history. *)
Lemma call_get_shape E self resource note tr :
  ascii_credentials self = true ->
  let tr0 := tr ++ [EvLog DEBUG note] in
  let out := answer E self GET resource (PDict []) tr0 in
  exists notes,
    forallb is_log notes = true /\
    call_get E self resource note tr
      = (Ok (sub_call_value out),
         tr ++ [EvLog DEBUG note; EvTime (clock E tr0);
                EvHttp (sent E self GET resource (PDict []) tr0) out] ++ notes).
Proof.
  intros Hc tr0 out. unfold call_get.
  set (tr2 := tr0 ++ [EvTime (clock E tr0);
                      EvHttp (sent E self GET resource (PDict []) tr0) out]).
  destruct (get_outcome_spec resource out tr2) as (r & seg & Hrun & Hlog & Hval).
  assert (Hbody : (logger DEBUG note ;;; api_get E self resource (PDict [])) tr
                  = (r, tr2 ++ seg)).
  { unfold bind, logger, emit. fold tr0.
    rewrite (api_get_run E self resource (PDict []) tr0 Hc). exact Hrun. }
  destruct r as [v|e].
  - exists seg. split; [exact Hlog|].
    rewrite (try_ok _ _ _ _ _ Hbody). subst v.
    unfold tr2, tr0. now rewrite <- !app_assoc.
  - exists (seg ++ [EvLog ERROR (ErrorWhenCalling e resource)]).
    split; [rewrite forallb_app, Hlog; reflexivity|].
    rewrite (try_err _ _ _ _ _ Hbody), Hval.
    unfold bind, logger, emit, ret, tr2, tr0. now rewrite <- !app_assoc.
Qed.

Lemma call_post_shape E self resource settings tr :
  ascii_credentials self = true ->
  let tr0 := tr ++ [EvLog DEBUG (TryingToCallWithSettings resource settings)] in
  let out := answer E self POST resource settings tr0 in
  exists notes,
    forallb is_log notes = true /\
    call_post E self resource settings tr
      = (Ok (sub_call_value out),
         tr ++ [EvLog DEBUG (TryingToCallWithSettings resource settings);
                EvTime (clock E tr0);
                EvHttp (sent E self POST resource settings tr0) out] ++ notes).
Proof.
  intros Hc tr0 out. unfold call_post.
  set (note := TryingToCallWithSettings resource settings) in *.
  set (tr2 := tr0 ++ [EvTime (clock E tr0);
                      EvHttp (sent E self POST resource settings tr0) out]).
  destruct (post_outcome_spec resource out tr2) as (r & seg & Hrun & Hlog & Hval).
  assert (Hbody : (logger DEBUG note ;;; api_post E self resource settings) tr
                  = (r, tr2 ++ seg)).
  { unfold bind, logger, emit. fold tr0.
    rewrite (api_post_run E self resource settings tr0 Hc). exact Hrun. }
  destruct r as [v|e].
  - exists seg. split; [exact Hlog|].
    rewrite (try_ok _ _ _ _ _ Hbody). subst v.
    unfold tr2, tr0. now rewrite <- !app_assoc.
  - exists (seg ++ [EvLog ERROR (ErrorWhenCalling e resource)]).
    split; [rewrite forallb_app, Hlog; reflexivity|].
    rewrite (try_err _ _ _ _ _ Hbody), Hval.
    unfold bind, logger, emit, ret, tr2, tr0. now rewrite <- !app_assoc.
Qed.

Lemma call_get_request E self resource note tr :
  ascii_credentials self = true ->
  let tr0 := tr ++ [EvLog DEBUG note] in
  exists seg,
    call_get E self resource note tr
      = (Ok (sub_call_value (answer E self GET resource (PDict []) tr0)), tr ++ seg) /\
    requests seg = [sent E self GET resource (PDict []) tr0].
Proof.
  intros Hc tr0.
  destruct (call_get_shape E self resource note tr Hc) as (notes & Hlog & Hrun).
  eexists. split; [exact Hrun|].
  cbn [requests flat_map request_of app].
  fold (requests notes). now rewrite (logs_only_requests _ Hlog).
Qed.

(** X1. The five reads that take no date.  With credentials that encode,
    each returns after exactly one request -- a GET of its resource with the
    empty object as JSON body and freshly signed headers -- and never raises:
    it returns the [data] of a status-200 object envelope whose [msg] is
    ["Success"], and [None] for every other answer. *)
Theorem read_wrappers_spec E self sn tr :
  ascii_credentials self = true ->
  let reads (m : M pyval) (url : string) :=
    let tr0 := tr ++ [EvLog DEBUG (TryingToCall url)] in
    exists seg,
      m tr = (Ok (sub_call_value (answer E self GET url (PDict []) tr0)), tr ++ seg) /\
      requests seg = [Request GET url (signed_headers self (clock E tr0)) (PDict [])] in
  reads (getESSList E self) (cat [BASEURL; "/getEssList"]) /\
  reads (getLastPowerData E self sn)
        (cat [BASEURL; "/getLastPowerData?sysSn="; py_str E sn]) /\
  reads (getSumDataForCustomer E self sn)
        (cat [BASEURL; "/getSumDataForCustomer?sysSn="; py_str E sn]) /\
  reads (getChargeConfigInfo E self sn)
        (cat [BASEURL; "/getChargeConfigInfo?sysSn="; py_str E sn]) /\
  reads (getDisChargeConfigInfo E self sn)
        (cat [BASEURL; "/getDisChargeConfigInfo?sysSn="; py_str E sn]).
Proof.
  intros Hc reads. unfold reads.
  repeat apply conj; apply (call_get_request E self _ _ tr Hc).
Qed.

(** X2. The two update operations.  With credentials that encode, each
    returns after exactly one request -- a POST of its resource whose JSON
    body is the dict of the seven named fields, bound to the arguments -- and
    never raises: it returns the [data] of a status-200 object envelope whose
    [msg] is ["Success"], and [None] for every other answer. *)
Theorem update_wrappers_spec E self tr (sysSn cap flag e1 e2 f1 f2 : pyval) :
  ascii_credentials self = true ->
  let posts (m : M pyval) (url : string) (body : pyval) :=
    let tr0 := tr ++ [EvLog DEBUG (TryingToCallWithSettings url body)] in
    exists seg,
      m tr = (Ok (sub_call_value (answer E self POST url body tr0)), tr ++ seg) /\
      requests seg = [Request POST url (signed_headers self (clock E tr0)) body] in
  posts (updateChargeConfigInfo E self sysSn cap flag e1 e2 f1 f2)
        (cat [BASEURL; "/updateChargeConfigInfo"])
        (PDict [ ("sysSn", sysSn); ("batHighCap", cap); ("gridCharge", flag);
                 ("timeChae1", e1); ("timeChae2", e2);
                 ("timeChaf1", f1); ("timeChaf2", f2) ]) /\
  posts (updateDisChargeConfigInfo E self sysSn cap flag e1 e2 f1 f2)
        (cat [BASEURL; "/updateDisChargeConfigInfo"])
        (PDict [ ("sysSn", sysSn); ("batUseCap", cap); ("ctrDis", flag);
                 ("timeDise1", e1); ("timeDise2", e2);
                 ("timeDisf1", f1); ("timeDisf2", f2) ]).
Proof.
  intros Hc posts. unfold posts.
  split.
  - destruct (call_post_shape E self (cat [BASEURL; "/updateChargeConfigInfo"])
                (PDict [ ("sysSn", sysSn); ("batHighCap", cap); ("gridCharge", flag);
                         ("timeChae1", e1); ("timeChae2", e2);
                         ("timeChaf1", f1); ("timeChaf2", f2) ]) tr Hc)
      as (notes & Hlog & Hrun).
    eexists. split; [exact Hrun|].
    cbn [requests flat_map request_of app].
    fold (requests notes). now rewrite (logs_only_requests _ Hlog).
  - destruct (call_post_shape E self (cat [BASEURL; "/updateDisChargeConfigInfo"])
                (PDict [ ("sysSn", sysSn); ("batUseCap", cap); ("ctrDis", flag);
                         ("timeDise1", e1); ("timeDise2", e2);
                         ("timeDisf1", f1); ("timeDisf2", f2) ]) tr Hc)
      as (notes & Hlog & Hrun).
    eexists. split; [exact Hrun|].
    cbn [requests flat_map request_of app].
    fold (requests notes). now rewrite (logs_only_requests _ Hlog).
Qed.

(* ================================================================== *)
(** ** Further properties: credentials, statuses, bodies *)
(* ================================================================== *)

Lemma api_get_unsigned E self path json tr :
  ascii_credentials self = false ->
  api_get E self path json tr
    = (Err UnicodeEncodeError,
       tr ++ [EvTime (clock E tr); EvLog ERROR (LogExn UnicodeEncodeError)]).
Proof.
  intros Hc. unfold api_get, try_except, bind at 1.
  rewrite (headers_raise E self tr Hc).
  unfold bind, logger, emit, raise. now rewrite <- app_assoc.
Qed.

Lemma api_post_unsigned E self path json tr :
  ascii_credentials self = false ->
  api_post E self path json tr
    = (Err UnicodeEncodeError,
       tr ++ [EvTime (clock E tr); EvLog ERROR (LogExn UnicodeEncodeError)]).
Proof.
  intros Hc. unfold api_post, try_except, bind at 1.
  rewrite (headers_raise E self tr Hc).
  unfold bind, logger, emit, raise. now rewrite <- app_assoc.
Qed.

Lemma getESSList_unsigned E self tr :
  ascii_credentials self = false ->
  exists seg,
    getESSList E self tr = (Ok PNone, tr ++ seg) /\ requests seg = [].
Proof.
  intros Hc. unfold getESSList, call_get, try_except, bind at 1, logger at 1, emit.
  rewrite (api_get_unsigned E self _ _ _ Hc).
  unfold bind, logger, emit, ret. rewrite <- !app_assoc.
  eexists. split; reflexivity.
Qed.

(** X3. Credentials that do not encode as ASCII.  [__headers] raises
    [UnicodeEncodeError] before any request is built: [api_get] and
    [api_post] log it and raise it; [getESSList] returns [None]; [getdata]
    and [authenticate] raise [TypeError]; and none of them sends a request. *)
Theorem unencodable_credentials_send_nothing E self gp delay tr :
  ascii_credentials self = false ->
  (forall path json,
      api_get E self path json tr
      = (Err UnicodeEncodeError,
         tr ++ [EvTime (clock E tr); EvLog ERROR (LogExn UnicodeEncodeError)])) /\
  (forall path json,
      api_post E self path json tr
      = (Err UnicodeEncodeError,
         tr ++ [EvTime (clock E tr); EvLog ERROR (LogExn UnicodeEncodeError)])) /\
  (fst (getESSList E self tr) = Ok PNone /\
   requests (snd (getESSList E self tr)) = requests tr) /\
  (fst (getdata E self gp delay tr) = Err TypeError /\
   requests (snd (getdata E self gp delay tr)) = requests tr) /\
  (fst (authenticate E self tr) = Err TypeError /\
   requests (snd (authenticate E self tr)) = requests tr).
Proof.
  intros Hc.
  destruct (getESSList_unsigned E self tr Hc) as (seg & Hrun & Hreq).
  split; [intros; now apply api_get_unsigned|].
  split; [intros; now apply api_post_unsigned|].
  split; [|split].
  - rewrite Hrun. cbn [fst snd]. split; [reflexivity|].
    now rewrite requests_app, Hreq, app_nil_r.
  - rewrite (getdata_run E self gp delay tr _ _ Hrun), aggregate_none.
    cbn [fst snd]. split; [reflexivity|].
    now rewrite !requests_app, Hreq, !app_nil_r.
  - unfold authenticate, try_except. rewrite (bind_ok _ _ _ _ _ Hrun).
    cbn. split; [reflexivity|].
    now rewrite !requests_app, Hreq, !app_nil_r.
Qed.


(** X5. A status-200 body that parses but is not an object.  [api_get] and
    [api_post] return [None] when it is a list without the element ["msg"]
    or a string without the substring ["msg"], and raise [TypeError] for
    every other such body: [in] fails on [null], booleans and numbers, and
    a list or string that does contain ["msg"] fails at
    [json_response["msg"]]. *)
Theorem non_object_body E self path json tr j :
  ascii_credentials self = true ->
  is_dict j = false ->
  (answer E self GET path json tr = Response 200 (Some j) ->
   fst (api_get E self path json tr)
   = if lacks_msg j then Ok PNone else Err TypeError) /\
  (answer E self POST path json tr = Response 200 (Some j) ->
   fst (api_post E self path json tr)
   = if lacks_msg j then Ok PNone else Err TypeError).
Proof.
  intros Hc Hj. split; intros Hans.
  - rewrite (api_get_run E self path json tr Hc), Hans.
    unfold get_outcome. run_monad. simpl.
    destruct j as [| b | z | f | s | l | d]; try discriminate; try reflexivity;
      simpl.
    + destruct (str_contains "msg" s); reflexivity.
    + destruct (existsb _ l); reflexivity.
  - rewrite (api_post_run E self path json tr Hc), Hans.
    unfold post_outcome. run_monad. simpl.
    destruct j as [| b | z | f | s | l | d]; try discriminate; try reflexivity;
      simpl.
    + destruct (str_contains "msg" s); reflexivity.
    + destruct (existsb _ l); reflexivity.
Qed.

(* ================================================================== *)
(** ** Further properties: every request is freshly signed *)
(* ================================================================== *)

Lemma fresh_logs E self seg : forall tr,
  forallb is_log seg = true ->
  fresh_signed E self tr -> fresh_signed E self (tr ++ seg).
Proof.
  induction seg as [|e seg IH]; intros tr Hlog Hf.
  - now rewrite app_nil_r.
  - cbn [forallb] in Hlog. apply andb_true_iff in Hlog as [He Hseg].
    change (e :: seg) with ([e] ++ seg). rewrite app_assoc.
    apply IH; [exact Hseg|]. constructor; [exact Hf|]. now destruct e.
Qed.

Lemma keeps_ret E self {A} (a : A) : keeps_fresh E self (ret a).
Proof. intros tr H. exact H. Qed.

Lemma keeps_raise E self {A} e : keeps_fresh E self (@raise A e).
Proof. intros tr H. exact H. Qed.

Lemma keeps_lift E self {A} (r : result A) : keeps_fresh E self (lift r).
Proof. intros tr H. exact H. Qed.

Lemma keeps_logger E self l m : keeps_fresh E self (logger l m).
Proof. intros tr H. now constructor. Qed.

Lemma keeps_sleep E self d : keeps_fresh E self (asyncio_sleep d).
Proof. intros tr H. now constructor. Qed.

Lemma keeps_strftime E self : keeps_fresh E self (time_strftime E).
Proof. intros tr H. now constructor. Qed.

Lemma keeps_bind E self {A B} (m : M A) (k : A -> M B) :
  keeps_fresh E self m -> (forall a, keeps_fresh E self (k a)) ->
  keeps_fresh E self (bind m k).
Proof.
  intros Hm Hk tr H. unfold bind. specialize (Hm tr H).
  destruct (m tr) as [[a|e] tr']; [now apply Hk | exact Hm].
Qed.

Lemma keeps_try E self {A} (m : M A) h :
  keeps_fresh E self m -> (forall e, keeps_fresh E self (h e)) ->
  keeps_fresh E self (try_except m h).
Proof.
  intros Hm Hh tr H. unfold try_except. specialize (Hm tr H).
  destruct (m tr) as [[a|e] tr']; [exact Hm | now apply Hh].
Qed.

Lemma keeps_api_get E self path json : keeps_fresh E self (api_get E self path json).
Proof.
  intros tr H. destruct (ascii_credentials self) eqn:Hc.
  - rewrite (api_get_run E self path json tr Hc).
    match goal with
    | |- context [get_outcome path ?o ?t] =>
        destruct (get_outcome_spec path o t) as (r & seg & -> & Hlog & _)
    end.
    apply fresh_logs; [exact Hlog|]. now constructor.
  - rewrite (api_get_unsigned E self path json tr Hc). cbn [snd].
    change (tr ++ [EvTime (clock E tr); EvLog ERROR (LogExn UnicodeEncodeError)])
      with (tr ++ [EvTime (clock E tr)] ++ [EvLog ERROR (LogExn UnicodeEncodeError)]).
    rewrite app_assoc. constructor; [now constructor | reflexivity].
Qed.

Lemma keeps_api_post E self path json : keeps_fresh E self (api_post E self path json).
Proof.
  intros tr H. destruct (ascii_credentials self) eqn:Hc.
  - rewrite (api_post_run E self path json tr Hc).
    match goal with
    | |- context [post_outcome path ?o ?t] =>
        destruct (post_outcome_spec path o t) as (r & seg & -> & Hlog & _)
    end.
    apply fresh_logs; [exact Hlog|]. now constructor.
  - rewrite (api_post_unsigned E self path json tr Hc). cbn [snd].
    change (tr ++ [EvTime (clock E tr); EvLog ERROR (LogExn UnicodeEncodeError)])
      with (tr ++ [EvTime (clock E tr)] ++ [EvLog ERROR (LogExn UnicodeEncodeError)]).
    rewrite app_assoc. constructor; [now constructor | reflexivity].
Qed.

Ltac keeps :=
  repeat first
    [ apply keeps_ret | apply keeps_raise | apply keeps_lift
    | apply keeps_logger | apply keeps_sleep | apply keeps_strftime
    | apply keeps_api_get | apply keeps_api_post
    | apply keeps_bind; [ | intros ]
    | apply keeps_try; [ | intros ]
    | match goal with
      | |- keeps_fresh _ _ (if ?b then _ else _) => destruct b
      end ].

Lemma keeps_call_get E self resource note :
  keeps_fresh E self (call_get E self resource note).
Proof. unfold call_get. keeps. Qed.

Lemma keeps_call_post E self resource settings :
  keeps_fresh E self (call_post E self resource settings).
Proof. unfold call_post. keeps. Qed.

Lemma keeps_energy E self sn q : keeps_fresh E self (getOneDateEnergyBySn E self sn q).
Proof. unfold getOneDateEnergyBySn. keeps; apply keeps_call_get. Qed.

Lemma keeps_power E self sn q : keeps_fresh E self (getOneDayPowerBySn E self sn q).
Proof. unfold getOneDayPowerBySn. keeps; apply keeps_call_get. Qed.

Lemma keeps_enrich_unit E self gp delay u :
  keeps_fresh E self (enrich_unit E self gp delay u).
Proof.
  unfold enrich_unit, getSumDataForCustomer, getLastPowerData,
    getChargeConfigInfo, getDisChargeConfigInfo.
  repeat first [ apply keeps_call_get | apply keeps_energy | apply keeps_power
               | progress keeps ].
Qed.

Lemma keeps_getdata_loop E self gp delay units : forall acc,
  keeps_fresh E self (getdata_loop E self gp delay units acc).
Proof.
  induction units as [|u rest IH]; intros acc; cbn [getdata_loop].
  - apply keeps_ret.
  - apply keeps_bind; [apply keeps_lift|]. intros [|]; [|apply IH].
    apply keeps_bind; [apply keeps_enrich_unit|]. intros u'.
    apply keeps_bind; [apply keeps_logger|]. intros _. apply IH.
Qed.

Lemma keeps_authenticate_loop E self units : forall b,
  keeps_fresh E self (authenticate_loop units b).
Proof.
  induction units as [|u rest IH]; intros b; cbn [authenticate_loop].
  - apply keeps_ret.
  - apply keeps_bind; [apply keeps_lift|]. intros has. apply IH.
Qed.

(** What a history of that kind says about each of its requests. *)
Lemma fresh_signed_request E self tr :
  fresh_signed E self tr ->
  forall pre rq out post,
    tr = pre ++ EvHttp rq out :: post ->
    exists pre',
      pre = pre' ++ [EvTime (clock E pre')] /\
      rq_headers rq = signed_headers self (clock E pre') /\
      out = server E pre rq.
Proof.
  induction 1 as [|tr e Hf IH He|tr m path json Hf IH]; intros pre rq out post Heq.
  - now destruct pre.
  - destruct post as [|x post _] using rev_ind.
    + apply app_inj_tail in Heq as [_ ->]. discriminate.
    + rewrite app_comm_cons, app_assoc in Heq.
      apply app_inj_tail in Heq as [Heq _]. now apply (IH pre rq out post).
  - change (tr ++ [EvTime (clock E tr);
                   EvHttp (sent E self m path json tr) (answer E self m path json tr)])
      with (tr ++ [EvTime (clock E tr)]
               ++ [EvHttp (sent E self m path json tr) (answer E self m path json tr)])
      in Heq.
    rewrite app_assoc in Heq.
    destruct post as [|x post _] using rev_ind.
    + apply app_inj_tail in Heq as [<- Hev]. injection Hev as <- <-.
      exists tr. repeat split.
    + rewrite app_comm_cons, app_assoc in Heq.
      apply app_inj_tail in Heq as [Heq _].
      destruct post as [|y post _] using rev_ind.
      * apply app_inj_tail in Heq as [_ Hev]. discriminate.
      * rewrite app_comm_cons, app_assoc in Heq.
        apply app_inj_tail in Heq as [Heq _]. now apply (IH pre rq out post).
Qed.

(** X6. Headers are never cached or reused.  In a run of [getdata],
    [authenticate], a dated read or an update from the empty history, every
    request in the trace comes right after a clock read and carries the
    headers signed for exactly that reading (its ["timestamp"] and its
    ["sign"]), and the answer recorded with it is the server's answer to
    it. *)
Theorem requests_are_freshly_signed E self gp delay
    (sn queryDate cap flag e1 e2 f1 f2 : pyval) :
  let fresh (tr : trace) :=
    forall pre rq out post,
      tr = pre ++ EvHttp rq out :: post ->
      exists pre',
        pre = pre' ++ [EvTime (clock E pre')] /\
        rq_headers rq = signed_headers self (clock E pre') /\
        out = server E pre rq in
  fresh (snd (getdata E self gp delay [])) /\
  fresh (snd (authenticate E self [])) /\
  fresh (snd (getOneDateEnergyBySn E self sn queryDate [])) /\
  fresh (snd (getOneDayPowerBySn E self sn queryDate [])) /\
  fresh (snd (updateChargeConfigInfo E self sn cap flag e1 e2 f1 f2 [])) /\
  fresh (snd (updateDisChargeConfigInfo E self sn cap flag e1 e2 f1 f2 [])).
Proof.
  intros fresh. unfold fresh.
  assert (Hgetdata : keeps_fresh E self (getdata E self gp delay)).
  { unfold getdata, getESSList. apply keeps_try; [|intros; keeps].
    apply keeps_bind; [apply keeps_call_get|]. intros units.
    apply keeps_bind; [apply keeps_lift|]. intros items.
    apply keeps_getdata_loop. }
  assert (Hauth : keeps_fresh E self (authenticate E self)).
  { unfold authenticate, getESSList. apply keeps_try; [|intros; keeps].
    apply keeps_bind; [apply keeps_call_get|]. intros units.
    apply keeps_bind; [apply keeps_lift|]. intros items.
    apply keeps_authenticate_loop. }
  repeat apply conj; apply fresh_signed_request.
  - apply Hgetdata. constructor.
  - apply Hauth. constructor.
  - apply keeps_energy. constructor.
  - apply keeps_power. constructor.
  - apply keeps_call_post. constructor.
  - apply keeps_call_post. constructor.
Qed.

(* ================================================================== *)
(** ** Further properties: the device list and its entries *)
(* ================================================================== *)

(** X7. When the list call yields no data -- a transport failure, an
    envelope without the success marker, null or missing [data], a body that
    is not an object -- [getdata] and [authenticate] both raise [TypeError],
    having made the list request and no other call. *)
Theorem no_device_list E self gp delay tr :
  ascii_credentials self = true ->
  sub_call_value
    (answer E self GET list_url (PDict [])
       (tr ++ [EvLog DEBUG (TryingToCall list_url)])) = PNone ->
  (exists seg,
      getdata E self gp delay tr = (Err TypeError, tr ++ seg) /\
      calls seg = [Call GET list_url]) /\
  (exists seg,
      authenticate E self tr = (Err TypeError, tr ++ seg) /\
      calls seg = [Call GET list_url]).
Proof.
  intros Hc Hnone.
  destruct (call_get_spec E self list_url (TryingToCall list_url) tr Hc)
    as (seg & Hrun & Hcalls & _).
  rewrite Hnone in Hrun. change (call_get E self list_url (TryingToCall list_url))
    with (getESSList E self) in Hrun.
  split.
  - exists (seg ++ [EvLog ERROR (LogExn TypeError)]).
    rewrite (getdata_run E self gp delay tr _ _ Hrun), aggregate_none.
    split; [now rewrite app_assoc|].
    now rewrite calls_app, Hcalls.
  - exists (seg ++ [EvLog ERROR (LogExn TypeError)]).
    unfold authenticate, try_except. rewrite (bind_ok _ _ _ _ _ Hrun). cbn.
    split; [now rewrite app_assoc|].
    now rewrite calls_app, Hcalls.
Qed.

Lemma getdata_loop_app E self gp delay rest : forall before acc tr acc' tr',
  getdata_loop E self gp delay before acc tr = (Ok acc', tr') ->
  getdata_loop E self gp delay (before ++ rest) acc tr
  = getdata_loop E self gp delay rest acc' tr'.
Proof.
  induction before as [|u before IH]; intros acc tr acc' tr' H.
  - cbn in H. now injection H as <- <-.
  - cbn [app getdata_loop] in *. unfold bind at 1 in H. unfold bind at 1.
    unfold lift in *. destruct (py_contains u "sysSn") as [[|]|e];
      [| now apply IH | discriminate].
    unfold bind at 1 in H. unfold bind at 1.
    destruct (enrich_unit E self gp delay u tr) as [[u'|e] tr1]; [|discriminate].
    unfold bind at 1 in H. unfold bind at 1. unfold logger, emit in *.
    now apply IH.
Qed.

Lemma getdata_loop_aborts E self gp delay bad after acc tr :
  aborts bad = true ->
  getdata_loop E self gp delay (bad :: after) acc tr = (Err TypeError, tr).
Proof.
  intros H. cbn [getdata_loop].
  destruct bad as [| b | z | f | s | l | d]; try discriminate; try reflexivity.
  - cbn in H. unfold bind at 1, lift, py_contains. rewrite H. reflexivity.
  - cbn in H. unfold bind at 1, lift, py_contains. rewrite H. reflexivity.
Qed.

(** X8. An entry of the device list that is not an object and on which the
    loop raises ([null], a boolean, a number, a string or list containing
    ["sysSn"]) aborts [getdata]: the calls for the devices before it have
    been made, on schedule, and then [TypeError] is raised; no record is
    returned, and nothing is called for the entries after it. *)
Theorem getdata_aborts_on_bad_entry E self gp delay tr before bad after tr1 :
  getESSList E self tr = (Ok (PList (before ++ bad :: after)), tr1) ->
  forallb is_dict before = true ->
  aborts bad = true ->
  exists seg,
    getdata E self gp delay tr
      = (Err TypeError, tr1 ++ seg ++ [EvLog ERROR (LogExn TypeError)]) /\
    schedule E gp delay (filter has_serial before) (calls seg).
Proof.
  intros Hlist Hd Hbad.
  pose proof (list_call_signed E self tr _ tr1 Hlist) as Hc.
  destruct (getdata_loop_spec E self gp delay before Hc Hd [] tr1)
    as (seg & Hrun & Hsched & _).
  exists seg. split; [|exact Hsched].
  rewrite (getdata_run E self gp delay tr _ tr1 Hlist).
  unfold aggregate, try_except. cbn [py_iter]. rewrite bind_lift_ok.
  rewrite (getdata_loop_app E self gp delay (bad :: after) before _ _ _ _ Hrun).
  rewrite (getdata_loop_aborts E self gp delay bad after _ _ Hbad).
  unfold bind, logger, emit, raise. now rewrite app_assoc.
Qed.

Lemma length_requests_answers tr :
  List.length (requests tr) = List.length (answers tr).
Proof.
  induction tr as [|e tr IH]; [reflexivity|].
  destruct e; simpl; try exact IH. now rewrite IH.
Qed.

Lemma schedule_sleeps E gp delay devs cs :
  schedule E gp delay devs cs ->
  filter is_sleep cs
  = repeat (Sleep delay) ((List.length (fields gp) - 1) * List.length devs).
Proof.
  induction 1 as [|dev sn date1 date2 rest cs Hsn Hs IH].
  - now rewrite Nat.mul_0_r.
  - rewrite filter_app, IH. cbn [List.length].
    rewrite Nat.mul_succ_r, Nat.add_comm, repeat_app. f_equal.
    destruct gp; reflexivity.
Qed.

(** X9. The cost of a pass.  For a device list of objects of which [k]
    have a serial, [getdata] makes, after the list request, exactly [n * k]
    requests and [(n - 1) * k] sleeps, each of the configured delay, where
    [n] is 5, or 6 with the power curve. *)
Theorem getdata_cost E self (gp : bool) delay tr units tr1 :
  getESSList E self tr = (Ok (PList units), tr1) ->
  forallb is_dict units = true ->
  let k := List.length (filter has_serial units) in
  let n := if gp then 6%nat else 5%nat in
  exists recs seg,
    getdata E self gp delay tr = (Ok recs, tr1 ++ seg) /\
    List.length recs = k /\
    List.length (requests seg) = (n * k)%nat /\
    filter is_sleep (calls seg) = repeat (Sleep delay) ((n - 1) * k).
Proof.
  intros Hlist Hd k n.
  pose proof (list_call_signed E self tr units tr1 Hlist) as Hc.
  destruct (aggregate_spec E self gp delay units tr1 Hc Hd)
    as (seg & Hrun & Hsched & Hlen).
  eexists _, seg. rewrite (getdata_run E self gp delay tr _ tr1 Hlist).
  split; [exact Hrun|]. split; [apply build_records_length|].
  assert (Hn : List.length (fields gp) = n) by (destruct gp; reflexivity).
  split.
  - now rewrite length_requests_answers, Hlen, Hn.
  - rewrite (schedule_sleeps _ _ _ _ _ Hsched), Hn. reflexivity.
Qed.

Lemma authenticate_loop_run units : forall b tr,
  authenticate_loop units b tr
  = if existsb scalar units then (Err TypeError, tr)
    else (Ok (b || existsb mentions_serial units), tr).
Proof.
  induction units as [|u rest IH]; intros b tr.
  - cbn. now rewrite orb_false_r.
  - cbn [authenticate_loop existsb].
    destruct u as [| b0 | z | f | s | l | d]; try reflexivity;
      cbn [py_contains scalar orb]; rewrite bind_lift_ok, IH;
      unfold mentions_serial at 2; cbn [py_contains];
      destruct (existsb scalar rest); try reflexivity.
    + destruct (str_contains "sysSn" s), b; reflexivity.
    + destruct (existsb (fun v => py_str_eq v "sysSn") l), b; reflexivity.
    + destruct (dict_has d "sysSn"), b; reflexivity.
Qed.

(** X10. [authenticate] on any list the list call returns.  It adds nothing
    to the history of the list call -- no further request, no sleep -- unless
    it raises, which it does, with [TypeError], exactly when some entry is
    [null], a boolean or a number.  Otherwise its answer is whether
    ["sysSn" in entry] holds for some entry; a string containing ["sysSn"]
    or a list with that element counts like an object with that key. *)
Theorem authenticate_on_any_list E self tr units tr1 :
  getESSList E self tr = (Ok (PList units), tr1) ->
  authenticate E self tr
  = if existsb scalar units
    then (Err TypeError, tr1 ++ [EvLog ERROR (LogExn TypeError)])
    else (Ok (existsb mentions_serial units), tr1).
Proof.
  intros Hlist. unfold authenticate, try_except.
  rewrite (bind_ok _ _ _ _ _ Hlist). cbn [py_iter].
  rewrite bind_lift_ok, authenticate_loop_run.
  destruct (existsb scalar units); reflexivity.
Qed.

(* ================================================================== *)
(** ** Further properties: who closes the session *)
(* ================================================================== *)

(** X11. Ownership of the session.  A client given a session uses it,
    creates none, and [close] leaves it alone; a client given none creates
    one, uses it, and [close] closes exactly that one.  Either way, after
    [__init__] and [close] the sessions open are those open before. *)
Theorem session_ownership appID appSecret given timeout fresh :
  let self := fst (init appID appSecret given timeout fresh) in
  let made := snd (init appID appSecret given timeout fresh) in
  (forall s, given = Some s ->
             session self = s /\ made = [] /\ close self = []) /\
  (given = None ->
   session self = fresh /\ made = [SessionCreated fresh] /\
   close self = [SessionClosed fresh]) /\
  (forall opened, ~ In fresh opened ->
                  open_sessions (made ++ close self) opened = opened).
Proof.
  intros self made. split; [|split].
  - intros s ->. repeat split.
  - intros ->. repeat split.
  - intros opened Hfresh. subst self made. destruct given as [s|]; [reflexivity|].
    cbn. rewrite Nat.eqb_refl. cbn.
    induction opened as [|x opened IH]; [reflexivity|].
    cbn. destruct (Nat.eqb x fresh) eqn:Hx; cbn.
    + apply Nat.eqb_eq in Hx. exfalso. apply Hfresh. now left.
    + rewrite IH; [reflexivity|]. intros H. apply Hfresh. now right.
Qed.

(* ================================================================== *)
(** ** Further properties: an object where the list should be *)
(* ================================================================== *)

Lemma getdata_loop_strings E self gp delay ks : forall acc tr,
  getdata_loop E self gp delay (map PStr ks) acc tr
  = if existsb (str_contains "sysSn") ks then (Err TypeError, tr) else (Ok acc, tr).
Proof.
  induction ks as [|k ks IH]; intros acc tr; [reflexivity|].
  cbn [map existsb]. destruct (str_contains "sysSn" k) eqn:Hk.
  - now apply getdata_loop_aborts.
  - cbn [getdata_loop py_contains]. rewrite Hk, bind_lift_ok. apply IH.
Qed.

Lemma existsb_scalar_strings ks : existsb scalar (map PStr ks) = false.
Proof. induction ks as [|k ks IH]; [reflexivity | exact IH]. Qed.

Lemma existsb_mentions_strings ks :
  existsb mentions_serial (map PStr ks) = existsb (str_contains "sysSn") ks.
Proof. induction ks as [|k ks IH]; [reflexivity|]. cbn. now rewrite IH. Qed.

(** X12. When the list call returns an object rather than a list, the
    loops run over its keys.  If some key contains ["sysSn"] -- as for a
    single device object -- [authenticate] returns true while [getdata]
    raises [TypeError] without a single sub-call; if no key does,
    [authenticate] returns false and [getdata] returns the empty list. *)
Theorem object_instead_of_list E self gp delay tr d tr1 :
  getESSList E self tr = (Ok (PDict d), tr1) ->
  let named := existsb (str_contains "sysSn") (map fst d) in
  authenticate E self tr = (Ok named, tr1) /\
  getdata E self gp delay tr
  = if named then (Err TypeError, tr1 ++ [EvLog ERROR (LogExn TypeError)])
    else (Ok [], tr1).
Proof.
  intros Hlist named.
  assert (Hkeys : map (fun kv : string * pyval => PStr (fst kv)) d
                  = map PStr (map fst d)) by now rewrite map_map.
  split.
  - unfold authenticate, try_except. rewrite (bind_ok _ _ _ _ _ Hlist).
    cbn [py_iter]. rewrite bind_lift_ok, authenticate_loop_run, Hkeys.
    now rewrite existsb_scalar_strings, existsb_mentions_strings.
  - rewrite (getdata_run E self gp delay tr _ tr1 Hlist).
    unfold aggregate, try_except. cbn [py_iter].
    rewrite bind_lift_ok, Hkeys, getdata_loop_strings. fold named.
    destruct named; reflexivity.
Qed.

(* ================================================================== *)
(** ** Worked examples for the further properties *)
(* ================================================================== *)

Lemma read_wrappers_spec_witness :
  exists seg,
    getLastPowerData two_devices demo (PStr "X1") []
      = (Ok (PDict [("ok", PBool true)]), [] ++ seg) /\
    requests seg
      = [Request GET "https://openapi.alphaess.com/api/getLastPowerData?sysSn=X1"
           (signed_headers demo 1700000000) (PDict [])].
Proof.
  destruct (read_wrappers_spec two_devices demo (PStr "X1") [] eq_refl)
    as (_ & H & _).
  exact H.
Defined.

(** At the level of the wrapper a missing ["data"] key gives [None]. *)
Example read_wrapper_missing_data :
  fst (getSumDataForCustomer (always (PDict [("msg", PStr "Success")])) demo
         (PStr "X1") []) = Ok PNone.
Proof. vm_compute. reflexivity. Qed.

Lemma update_wrappers_spec_witness :
  exists seg,
    updateChargeConfigInfo (always (envelope "Success" PNone)) demo
      (PStr "X1") (PInt 90) (PInt 1) (PStr "06:00") (PStr "00:00")
      (PStr "01:00") (PStr "00:00") []
      = (Ok PNone, [] ++ seg) /\
    requests seg
      = [Request POST "https://openapi.alphaess.com/api/updateChargeConfigInfo"
           (signed_headers demo 1700000000)
           (PDict [ ("sysSn", PStr "X1"); ("batHighCap", PInt 90);
                    ("gridCharge", PInt 1); ("timeChae1", PStr "06:00");
                    ("timeChae2", PStr "00:00"); ("timeChaf1", PStr "01:00");
                    ("timeChaf2", PStr "00:00") ])].
Proof.
  destruct (update_wrappers_spec (always (envelope "Success" PNone)) demo []
              (PStr "X1") (PInt 90) (PInt 1) (PStr "06:00") (PStr "00:00")
              (PStr "01:00") (PStr "00:00") eq_refl) as (H & _).
  exact H.
Defined.

Lemma unencodable_credentials_send_nothing_witness :
  fst (getESSList two_devices unencodable []) = Ok PNone /\
  requests (snd (getESSList two_devices unencodable [])) = requests [].
Proof.
  destruct (unencodable_credentials_send_nothing two_devices unencodable
              false no_delay [] eq_refl) as (_ & _ & H & _).
  exact H.
Defined.


Lemma non_object_body_witness :
  fst (api_get (always (PList [PStr "msg"])) demo list_url (PDict []) [])
  = Err TypeError.
Proof.
  destruct (non_object_body (always (PList [PStr "msg"])) demo list_url (PDict [])
              [] (PList [PStr "msg"]) eq_refl eq_refl) as (H & _).
  apply H. vm_compute. reflexivity.
Defined.

Example non_object_body_examples :
  fst (api_get (always (PList [])) demo list_url (PDict []) []) = Ok PNone /\
  fst (api_get (always (PStr "no message")) demo list_url (PDict []) []) = Ok PNone /\
  fst (api_get (always (PStr "msg")) demo list_url (PDict []) []) = Err TypeError /\
  fst (api_get (always PNone) demo list_url (PDict []) []) = Err TypeError /\
  fst (api_post (always (PInt 0)) demo list_url (PDict []) []) = Err TypeError.
Proof. repeat apply conj; vm_compute; reflexivity. Qed.

Lemma no_device_list_witness :
  (exists seg,
      getdata (always (envelope "Failed" PNone)) demo true no_delay []
        = (Err TypeError, [] ++ seg) /\
      calls seg = [Call GET list_url]) /\
  (exists seg,
      authenticate (always (envelope "Failed" PNone)) demo [] = (Err TypeError, [] ++ seg) /\
      calls seg = [Call GET list_url]).
Proof.
  apply (no_device_list (always (envelope "Failed" PNone)) demo true no_delay []);
    vm_compute; reflexivity.
Defined.

Lemma getdata_aborts_on_bad_entry_witness :
  exists seg,
    getdata holed demo false no_delay []
      = (Err TypeError,
         snd (getESSList holed demo []) ++ seg ++ [EvLog ERROR (LogExn TypeError)]) /\
    schedule holed false no_delay
      (filter has_serial [PDict [("sysSn", PStr "X1")]]) (calls seg).
Proof.
  apply (getdata_aborts_on_bad_entry holed demo false no_delay []
           [PDict [("sysSn", PStr "X1")]] PNone [PDict [("sysSn", PStr "X2")]]
           (snd (getESSList holed demo [])));
    vm_compute; reflexivity.
Defined.

Example getdata_aborts_example :
  fst (getdata holed demo false no_delay []) = Err TypeError /\
  List.length (requests (snd (getdata holed demo false no_delay []))) = 6%nat.
Proof. apply conj; vm_compute; reflexivity. Qed.

Lemma getdata_cost_witness :
  exists recs seg,
    getdata two_devices demo true no_delay []
      = (Ok recs, snd (getESSList two_devices demo []) ++ seg) /\
    List.length recs = 2%nat /\
    List.length (requests seg) = 12%nat /\
    filter is_sleep (calls seg) = repeat (Sleep no_delay) 10.
Proof.
  apply (getdata_cost two_devices demo true no_delay [] two_units
           (snd (getESSList two_devices demo [])));
    vm_compute; reflexivity.
Defined.

Lemma authenticate_on_any_list_witness :
  authenticate holed demo []
  = (Err TypeError, snd (getESSList holed demo []) ++ [EvLog ERROR (LogExn TypeError)]).
Proof.
  apply (authenticate_on_any_list holed demo [] holed_units
           (snd (getESSList holed demo []))).
  vm_compute. reflexivity.
Defined.

Example authenticate_on_strings_example :
  fst (authenticate (always (envelope "Success" (PList [PStr "my sysSn"]))) demo [])
  = Ok true.
Proof. vm_compute. reflexivity. Qed.

Lemma object_instead_of_list_witness :
  authenticate single_object demo [] = (Ok true, snd (getESSList single_object demo [])) /\
  getdata single_object demo false no_delay []
  = (Err TypeError,
     snd (getESSList single_object demo []) ++ [EvLog ERROR (LogExn TypeError)]).
Proof.
  apply (object_instead_of_list single_object demo false no_delay []
           [("sysSn", PStr "X1"); ("popv", PInt 5)]
           (snd (getESSList single_object demo []))).
  vm_compute. reflexivity.
Defined.

Lemma session_ownership_witness :
  open_sessions
    (snd (init "id" "secret" None 30 7%nat) ++ close (fst (init "id" "secret" None 30 7%nat)))
    [3%nat; 5%nat] = [3%nat; 5%nat] /\
  close (fst (init "id" "secret" (Some 3%nat) 30 7%nat)) = [].
Proof.
  destruct (session_ownership "id" "secret" None 30 7%nat) as (_ & _ & H).
  destruct (session_ownership "id" "secret" (Some 3%nat) 30 7%nat) as (H' & _).
  split.
  - apply H. vm_compute. intuition discriminate.
  - now destruct (H' 3%nat eq_refl) as (_ & _ & Hc).
Defined.
